(** * Nuitka function nodes: scopes, function creation, direct calls, releases

    A shallow embedding of [nuitka/nodes/FunctionNodes.py] and
    [nuitka/tree/ReformulationFunctionStatements.py].

    Layout: the data model and the operations come first (one section per
    component, helpers that live in other Nuitka modules are section
    variables or carry a comment naming the module), the theorems follow. *)

From Stdlib Require Import ZArith String List Bool Lia.
From stdpp Require Import base option list gmap strings.

Set Warnings "-register-all".

Open Scope string_scope.
Open Scope list_scope.
Open Scope Z_scope.
Open Scope nat_scope.
Open Scope stdpp_scope.

(* ================================================================== *)
(** * Part I: definitions                                              *)
(* ================================================================== *)

(** ** Python exceptions and fallible results *)

(** The exceptions that the modelled code raises itself ([assert],
    attribute access on [None], a missing dictionary key, iteration over a
    non-iterable constant) and the [TypeError] instances that
    [TooManyArguments] carries.  [assert] statements are modelled as
    executed, which is how Python runs them unless it is started with
    [-O]. *)
Inductive PyException :=
| AssertionError
| AttributeError
| KeyError (key : string)
| TypeError (message : string).

Inductive Result (A : Type) :=
| Ok (value : A)
| Raise (exception : PyException).
Arguments Ok {A} value.
Arguments Raise {A} exception.

#[global] Instance Result_ret : MRet Result := fun _ a => Ok a.
#[global] Instance Result_bind : MBind Result := fun _ _ f m =>
  match m with
  | Ok a => f a
  | Raise e => Raise e
  end.

(** ** Constants, parameter specifications, expression nodes *)

Inductive Constant :=
| ConstNone
| ConstInt (z : Z)
| ConstStr (s : string)
| ConstTuple (items : list Constant)
| ConstDict (items : list (Constant * Constant)).

(** [constant is None] and [constant == {}]. *)
Definition isNoneConstant (c : Constant) : bool :=
  match c with ConstNone => true | _ => false end.

Definition isEmptyDictConstant (c : Constant) : bool :=
  match c with ConstDict [] => true | _ => false end.

(** [ParameterSpec] lives in [nuitka/nodes/ParameterSpecs.py]; the record
    lists the attributes that the accessors used by [FunctionNodes.py]
    return. *)
Record ParameterSpec := {
  normal_args : list string;
  kw_only_args : list string;
  list_star_arg : option string;
  dict_star_arg : option string;
  default_count : nat
}.

Definition getArgumentNames (spec : ParameterSpec) : list string :=
  normal_args spec.
Definition getStarListArgumentName (spec : ParameterSpec) : option string :=
  list_star_arg spec.
Definition getStarDictArgumentName (spec : ParameterSpec) : option string :=
  dict_star_arg spec.
Definition getDefaultCount (spec : ParameterSpec) : nat :=
  default_count spec.

(** Modelled from the spec: [ParameterSpec.getAllNames] is not part of the
    excerpt; every declared name, in the order in which the data model
    lists the categories (positional, keyword-only, list catch-all, dict
    catch-all). *)
Definition getAllNames (spec : ParameterSpec) : list string :=
  normal_args spec ++ kw_only_args spec ++
  option_list (list_star_arg spec) ++ option_list (dict_star_arg spec).

(** The three classes built on [ExpressionFunctionBody]. *)
Inductive BodyKind :=
| FunctionBody
| GeneratorFunctionBody
| ClassBody.

(** What [ExpressionFunctionRef.getFunctionBody()] gives to the code of
    [ExpressionFunctionCreation] and [ExpressionFunctionCall]: these two
    classes read the name, the class of the body, its parameters and
    [mayRaiseException(BaseException)], which [ExpressionFunctionBody]
    forwards to its statement sequence (statement nodes outside the
    excerpt compute it, so its value is recorded here). *)
Record FunctionBodyView := {
  view_name : string;
  view_kind : BodyKind;
  view_parameters : ParameterSpec;
  view_body_mayRaiseException : bool
}.

Definition isGenerator (function_body : FunctionBodyView) : bool :=
  match view_kind function_body with GeneratorFunctionBody => true | _ => false end.

Definition isExpressionClassBody (function_body : FunctionBodyView) : bool :=
  match view_kind function_body with ClassBody => true | _ => false end.

(** [ExpressionFunctionBody.mayRaiseException]:
    [return self.getBody().mayRaiseException(exception_type)]. *)
Definition mayRaiseException (function_body : FunctionBodyView) : bool :=
  view_body_mayRaiseException function_body.

Definition getParameters (function_body : FunctionBodyView) : ParameterSpec :=
  view_parameters function_body.

Record FunctionRef := ExpressionFunctionRef {
  getFunctionBody : FunctionBodyView
}.

(** [ExpressionFunctionRef.getName]. *)
Definition FunctionRef_getName (function_ref : FunctionRef) : string :=
  view_name (getFunctionBody function_ref).

(** Expression nodes.  [ExpressionSideEffects], [ExpressionRaiseException]
    and [ExpressionOutlineBody] are the nodes that the helpers
    [wrapExpressionWithSideEffects],
    [makeRaiseExceptionReplacementExpressionFromInstance] and
    [convertFunctionCallToOutline] build; [ExpressionCall] stands for the
    call nodes of [CallNodes.py], with absent children as [None]. *)
Inductive Expr :=
| ExpressionConstantRef (constant : Constant)
| ExpressionVariableRef (variable_name : string)
| ExpressionMakeTuple (elements : list Expr)
| ExpressionCall (called : Expr) (call_args call_kw : option Expr)
| ExpressionSideEffects (side_effects : list Expr) (expression : Expr)
| ExpressionRaiseException (exception : PyException)
| ExpressionFunctionCreation (function_ref : FunctionRef)
    (defaults : list Expr) (kw_defaults annotations : option Expr)
| ExpressionFunctionCall (function : Expr) (values : list Expr)
| ExpressionOutlineBody (provider : nat) (function_ref : FunctionRef)
    (values : list Expr).

Definition isExpressionConstantRef (node : Expr) : bool :=
  match node with ExpressionConstantRef _ => true | _ => false end.

Definition isExpressionMakeTuple (node : Expr) : bool :=
  match node with ExpressionMakeTuple _ => true | _ => false end.


(** A computation step returns [(node, change_tags, change_desc)]. *)
Definition Replacement : Type := Expr * option string * option string.

Definition unchanged (node : Expr) : Replacement := (node, None, None).

(** The constraint collection is only told about exception exits here. *)
Inductive ExceptionType := BaseException.

Definition ConstraintCollection : Type := list ExceptionType.

Definition onExceptionRaiseExit (exception_type : ExceptionType)
    (constraint_collection : ConstraintCollection) : ConstraintCollection :=
  constraint_collection ++ [exception_type].

(** Modelled from the spec: [wrapExpressionWithSideEffects] is in
    [NodeMakingHelpers.py]; the new node evaluates the given side effects
    and then the new expression, and with nothing to evaluate first it is
    the new expression.  [old_node] only provides the source position. *)
Definition wrapExpressionWithSideEffects (side_effects : list Expr)
    (old_node new_node : Expr) : Expr :=
  match side_effects with
  | [] => new_node
  | _ :: _ => ExpressionSideEffects side_effects new_node
  end.

(** Modelled from the spec: [makeRaiseExceptionReplacementExpressionFromInstance]
    is in [NodeMakingHelpers.py]; a node that raises the given exception
    instance ([expression] only provides the source position). *)
Definition makeRaiseExceptionReplacementExpressionFromInstance
    (expression : Expr) (exception : PyException) : Expr :=
  ExpressionRaiseException exception.

(** Modelled from the spec: [getIterationValues] of constant and tuple
    nodes is outside the excerpt; the elements of a tuple creation, and
    for a constant the constants that iterating over it gives. *)
Definition getIterationValues (node : Expr) : Result (list Expr) :=
  match node with
  | ExpressionMakeTuple elements => Ok elements
  | ExpressionConstantRef (ConstTuple items) =>
      Ok (map ExpressionConstantRef items)
  | ExpressionConstantRef (ConstDict items) =>
      Ok (map (fun item => ExpressionConstantRef (fst item)) items)
  | ExpressionConstantRef (ConstStr s) =>
      Ok (map (fun a => ExpressionConstantRef (ConstStr (String a EmptyString)))
              (list_ascii_of_string s))
  | _ => Raise (TypeError "object is not iterable")
  end.

(** ** Function creation: [ExpressionFunctionCreation] *)

(** [convertNoneConstantOrEmptyDictToNone], the checker of the
    [kw_defaults] child. *)
Definition convertNoneConstantOrEmptyDictToNone (node : option Expr)
    : option Expr :=
  match node with
  | None => None
  | Some (ExpressionConstantRef constant) =>
      if isNoneConstant constant then None
      else if isEmptyDictConstant constant then None
      else node
  | Some _ => node
  end.

(** [ExpressionFunctionCreation.__init__]: children are stored after their
    checkers ran. *)
Definition makeExpressionFunctionCreation (function_ref : FunctionRef)
    (defaults : list Expr) (kw_defaults annotations : option Expr) : Expr :=
  ExpressionFunctionCreation function_ref defaults
    (convertNoneConstantOrEmptyDictToNone kw_defaults) annotations.

(** The class attributes [kw_defaults_before_defaults] and
    [named_children]; [computeExpression] below reads neither. *)
Definition kw_defaults_before_defaults (python_version : Z) : bool :=
  (python_version <? 340)%Z.

Definition named_children (python_version : Z) : list string :=
  if kw_defaults_before_defaults python_version
  then ["kw_defaults"; "defaults"; "annotations"; "function_ref"]
  else ["defaults"; "kw_defaults"; "annotations"; "function_ref"].

(** [ExpressionFunctionCreation.getName]. *)
Definition getName (self : Expr) : string :=
  match self with
  | ExpressionFunctionCreation function_ref _ _ _ =>
      FunctionRef_getName function_ref
  | _ => ""
  end.

Section FunctionCreation.

(** [node.willRaiseException(BaseException)], computed by the node
    classes outside the excerpt. *)
Variable willRaiseException : Expr -> bool.

(** The loop [for default in defaults]: the first default that will
    raise ends the computation; the loop body never appends to
    [side_effects], so every iteration sees the list it started with. *)
Fixpoint computeExpression_defaults (self : Expr) (side_effects : list Expr)
    (defaults : list Expr) : option Replacement :=
  match defaults with
  | [] => None
  | default :: rest =>
      if willRaiseException default then
        Some (wrapExpressionWithSideEffects side_effects self default,
              Some "new_raise", Some "Default value contains raise.")
      else computeExpression_defaults self side_effects rest
  end.

(** [ExpressionFunctionCreation.computeExpression]. *)
Definition computeExpression (self : Expr) : Replacement :=
  match self with
  | ExpressionFunctionCreation function_ref defaults kw_defaults annotations =>
      let side_effects := [] in
      match computeExpression_defaults self side_effects defaults with
      | Some replacement => replacement
      | None =>
          let after_kw_defaults :=
            match kw_defaults with
            | Some kw =>
                if willRaiseException kw then
                  inl (wrapExpressionWithSideEffects side_effects self kw,
                       Some "new_raise",
                       Some "Keyword default values contain raise.")
                else inr (side_effects ++ [kw])
            | None => inr side_effects
            end in
          match after_kw_defaults with
          | inl replacement => replacement
          | inr side_effects =>
              match annotations with
              | Some ann =>
                  if willRaiseException ann then
                    (wrapExpressionWithSideEffects side_effects self ann,
                     Some "new_raise", Some "Annotation values contain raise.")
                  else unchanged self
              | None => unchanged self
              end
          end
      end
  | _ => unchanged self
  end.

End FunctionCreation.

(** ** Calls of a created function: the call-site rewrites *)

(** [TooManyArguments] of [ParameterSpecs.py] wraps the exception that the
    call would raise at run time. *)
Record TooManyArguments := mkTooManyArguments {
  getRealException : PyException
}.

(** The list comprehension [[args_dict[name] for name in ...]]: a missing
    key raises [KeyError], which the [except TooManyArguments] clause does
    not catch. *)
Fixpoint lookupAll (args_dict : gmap string Expr) (names : list string)
    : Result (list Expr) :=
  match names with
  | [] => Ok []
  | name :: rest =>
      match args_dict !! name with
      | None => Raise (KeyError name)
      | Some value => values ← lookupAll args_dict rest; Ok (value :: values)
      end
  end.

Definition getFunctionRef (self : Expr) : option FunctionRef :=
  match self with
  | ExpressionFunctionCreation function_ref _ _ _ => Some function_ref
  | _ => None
  end.

(** Modelled from the spec: [convertFunctionCallToOutline] is in
    [nuitka/optimizations/FunctionInlining.py]; the callee body copied to
    the call site as an outline that binds the parameters to the values. *)
Definition convertFunctionCallToOutline (provider : nat)
    (function_ref : FunctionRef) (values : list Expr) : Expr :=
  ExpressionOutlineBody provider function_ref values.

Section CallSite.

(** [matchCall] of [ParameterSpecs.py], by keyword: [func_name], [args],
    [star_list_arg], [star_dict_arg], [num_defaults], [positional],
    [pairs].  It returns the dictionary of matched values or raises
    [TooManyArguments]. *)
Variable matchCall :
  string -> list string -> option string -> option string -> nat ->
  list Expr -> list (string * Expr) ->
  gmap string Expr + TooManyArguments.

(** [call_node.extractPreCallSideEffects()] of [CallNodes.py]. *)
Variable extractPreCallSideEffects : Expr -> list Expr.

(** [Options.isExperimental()]. *)
Variable isExperimental : bool.

(** The [try] block of [computeExpressionCall] with its [except] clause:
    what happens once [args_tuple] is known. *)
Definition matchAndReplace (self call_node : Expr)
    (function_ref : FunctionRef) (args_tuple : list Expr)
    : Result Replacement :=
  let function_body := getFunctionBody function_ref in
  let call_spec := getParameters function_body in
  match matchCall (getName self)
                  (getArgumentNames call_spec)
                  (getStarListArgumentName call_spec)
                  (getStarDictArgumentName call_spec)
                  (getDefaultCount call_spec)
                  args_tuple
                  [] with
  | inl args_dict =>
      values ← lookupAll args_dict (getAllNames call_spec);
      Ok (ExpressionFunctionCall self values,
          Some "new_statements",
          Some ("Replaced call to created function body '" +:+ getName self
                +:+ "' with direct function call."))
  | inr e =>
      Ok (wrapExpressionWithSideEffects
            (extractPreCallSideEffects call_node)
            call_node
            (makeRaiseExceptionReplacementExpressionFromInstance
               call_node (getRealException e)),
          Some "new_raise",
          Some ("Replaced call to created function body '" +:+ getName self
                +:+ "' to argument error"))
  end.

(** The first test on [call_kw]: present, and not a constant or a
    constant different from the empty dictionary. *)
Definition call_kw_is_not_empty_constant (call_kw : option Expr) : bool :=
  match call_kw with
  | None => false
  | Some (ExpressionConstantRef constant) => negb (isEmptyDictConstant constant)
  | Some _ => true
  end.

(** [ExpressionFunctionCreation.computeExpressionCall].  The collection
    is told about the exception exit before anything else. *)
Definition computeExpressionCall (self call_node : Expr)
    (call_args call_kw : option Expr)
    (constraint_collection : ConstraintCollection)
    : Result Replacement * ConstraintCollection :=
  let constraint_collection :=
    onExceptionRaiseExit BaseException constraint_collection in
  match getFunctionRef self with
  | None => (Ok (unchanged call_node), constraint_collection)
  | Some function_ref =>
      if call_kw_is_not_empty_constant call_kw then
        (Ok (unchanged call_node), constraint_collection)
      else if bool_decide (call_kw <> None) then
        (Ok (unchanged call_node), constraint_collection)
      else
        match call_args with
        | None =>
            (matchAndReplace self call_node function_ref [],
             constraint_collection)
        | Some args =>
            if isExpressionConstantRef args || isExpressionMakeTuple args
            then
              (args_tuple ← getIterationValues args;
               matchAndReplace self call_node function_ref args_tuple,
               constraint_collection)
            else
              (* [assert False, call_args]; the [return] after it is
                 not reached. *)
              (Raise AssertionError, constraint_collection)
        end
  end.

(** [ExpressionFunctionCreation.getCallCost]. *)
Definition getCallCost (self : Expr) (values : list Expr) : option nat :=
  if negb isExperimental then None
  else
    match getFunctionRef self with
    | None => None
    | Some function_ref =>
        let function_body := getFunctionBody function_ref in
        if isGenerator function_body then None
        else if isExpressionClassBody function_body then None
        else if mayRaiseException function_body then Some 60
        else Some 20
    end.

(** [ExpressionFunctionCreation.createOutlineFromCall]. *)
Definition createOutlineFromCall (self : Expr) (provider : nat)
    (values : list Expr) : Expr :=
  match getFunctionRef self with
  | Some function_ref =>
      convertFunctionCallToOutline provider function_ref values
  | None => self
  end.

(** The test [cost is not None and cost < 50]. *)
Definition cost_allows_inlining (cost : option nat) : bool :=
  match cost with
  | Some c => c <? 50
  | None => false
  end.

(** [ExpressionFunctionCall.computeExpression]; [provider] is
    [self.getParentVariableProvider()].  [__init__] asserts that the
    [function] child is a function creation. *)
Definition FunctionCall_computeExpression (provider : nat) (self : Expr)
    (constraint_collection : ConstraintCollection)
    : Result Replacement * ConstraintCollection :=
  match self with
  | ExpressionFunctionCall function values =>
      match getFunctionRef function with
      | None => (Raise AssertionError, constraint_collection)
      | Some function_ref =>
          let cost := getCallCost function values in
          let constraint_collection :=
            if mayRaiseException (getFunctionBody function_ref)
            then onExceptionRaiseExit BaseException constraint_collection
            else constraint_collection in
          if cost_allows_inlining cost then
            (Ok (createOutlineFromCall function provider values,
                 Some "new_statements", Some "Function call in-lined."),
             constraint_collection)
          else (Ok (unchanged self), constraint_collection)
      end
  | _ => (Ok (unchanged self), constraint_collection)
  end.




End CallSite.

(** ** Variables *)

(** The classes of [nuitka/Variables.py] by their constructors.
    [ParameterVariable] is derived from [LocalVariable]: the code of the
    excerpt filters with [isLocalVariable() and not isParameterVariable()]
    ([getUserLocalVariables]) and tests [isParameterVariable()] on the
    members of [getLocalVariables()] ([addFunctionVariableReleases]).
    Owners are scopes, named by their number. *)
Inductive Var :=
| LocalVariable (owner : nat) (variable_name : string)
| ParameterVariable (owner : nat) (parameter_name : string)
| ModuleVariable (module : nat) (variable_name : string)
| MaybeLocalVariable (owner : nat) (maybe_variable : Var).

#[global] Instance Var_eq_dec : EqDecision Var.
Proof. solve_decision. Defined.

Fixpoint Var_getName (variable : Var) : string :=
  match variable with
  | LocalVariable _ name => name
  | ParameterVariable _ name => name
  | ModuleVariable _ name => name
  | MaybeLocalVariable _ maybe_variable => Var_getName maybe_variable
  end.

Definition getOwner (variable : Var) : nat :=
  match variable with
  | LocalVariable owner _ => owner
  | ParameterVariable owner _ => owner
  | ModuleVariable module _ => module
  | MaybeLocalVariable owner _ => owner
  end.

Definition isLocalVariable (variable : Var) : bool :=
  match variable with
  | LocalVariable _ _ | ParameterVariable _ _ => true
  | _ => false
  end.

Definition isParameterVariable (variable : Var) : bool :=
  match variable with ParameterVariable _ _ => true | _ => false end.

Definition isModuleVariable (variable : Var) : bool :=
  match variable with ModuleVariable _ _ => true | _ => false end.

Definition isMaybeLocalVariable (variable : Var) : bool :=
  match variable with MaybeLocalVariable _ _ => true | _ => false end.

(** ** Statements *)

(** [StatementTryFinally] is what [makeTryFinallyStatement] builds;
    [StatementOther] is any statement class that the excerpt does not
    name, with the answer of its [isStatementAborting()]. *)
Inductive Statement :=
| StatementReturn (expression : Expr)
| StatementReleaseVariable (variable : Var)
| StatementOther (label : string) (aborting : bool)
| StatementTryFinally (tried : Statement) (final : list Statement)
| StatementsSequence (statements : list Statement)
| StatementsFrame (statements : list Statement).

(** [isStatementAborting] of the statement classes ([StatementNodes.py],
    [ReturnNodes.py]): a return aborts, a sequence or frame aborts when
    its last statement does (a sequence node holds at least one
    statement), a protected region whose finalization only releases
    variables aborts when the tried block does. *)
Fixpoint isStatementAborting (statement : Statement) : bool :=
  match statement with
  | StatementReturn _ => true
  | StatementReleaseVariable _ => false
  | StatementOther _ aborting => aborting
  | StatementTryFinally tried _ => isStatementAborting tried
  | StatementsSequence statements | StatementsFrame statements =>
      (fix last_aborts (l : list Statement) : bool :=
         match l with
         | [] => false
         | [s] => isStatementAborting s
         | _ :: rest => last_aborts rest
         end) statements
  end.

Definition isStatementsFrame (statement : Statement) : bool :=
  match statement with StatementsFrame _ => true | _ => false end.

(** [makeStatementsSequenceFromStatement] of [nuitka/tree/Helpers.py]. *)
Definition makeStatementsSequenceFromStatement (statement : Statement)
    : Statement :=
  StatementsSequence [statement].

(** Modelled from the spec: [makeTryFinallyStatement] is in
    [ReformulationTryFinallyStatements.py]; a protected region that runs
    [tried] and then, on every way out of it, the statements of [final]. *)
Definition makeTryFinallyStatement (tried : Statement)
    (final : list Statement) : Statement :=
  StatementTryFinally tried final.

(** [return None]: [StatementReturn] of a user-provided [None] constant. *)
Definition returnNone : Statement :=
  StatementReturn (ExpressionConstantRef ConstNone).

(** [_insertFinalReturnStatement]. *)
Definition _insertFinalReturnStatement
    (function_statements_body : option Statement) : Result Statement :=
  match function_statements_body with
  | None => Ok (makeStatementsSequenceFromStatement returnNone)
  | Some body =>
      if negb (isStatementAborting body) then
        match body with
        | StatementsSequence statements =>
            Ok (StatementsSequence (statements ++ [returnNone]))
        | StatementsFrame statements =>
            Ok (StatementsFrame (statements ++ [returnNone]))
        | _ => Raise AttributeError
        end
      else Ok body
  end.

(** The statements that [buildFunctionNode] hands to
    [function_body.setBody]: [function_kind] is the answer of
    [detectFunctionBodyKind], [function_statements_body] the result of
    [buildStatementsNode] ([None] when there is no statement). *)
Definition buildFunctionNode_body (function_kind : string)
    (function_statements_body : option Statement) : Result Statement :=
  kind ← (if String.eqb function_kind "Function" then Ok FunctionBody
          else if String.eqb function_kind "Generator"
               then Ok GeneratorFunctionBody
               else Raise AssertionError);
  function_statements_body ←
    match kind with
    | GeneratorFunctionBody =>
        match function_statements_body with
        | Some body => Ok body
        | None => Raise AttributeError
        end
    | _ => _insertFinalReturnStatement function_statements_body
    end;
  if isStatementsFrame function_statements_body
  then Ok (makeStatementsSequenceFromStatement function_statements_body)
  else Ok function_statements_body.

(** The statements that [buildAsyncFunctionNode] hands to the coroutine
    body's [setBody]. *)
Definition buildAsyncFunctionNode_body
    (function_statements_body : option Statement) : Result Statement :=
  function_statements_body ←
    _insertFinalReturnStatement function_statements_body;
  if isStatementsFrame function_statements_body
  then Ok (makeStatementsSequenceFromStatement function_statements_body)
  else Ok function_statements_body.

(** ** Scopes: modules and function bodies *)

(** The [providing] dictionary keeps its keys in insertion order. *)
Definition Providing : Type := list (string * Var).

Fixpoint dict_get (providing : Providing) (name : string) : option Var :=
  match providing with
  | [] => None
  | (key, variable) :: rest =>
      if String.eqb key name then Some variable else dict_get rest name
  end.

(** [providing[name] = variable]: an existing key keeps its place. *)
Fixpoint dict_set (providing : Providing) (name : string) (variable : Var)
    : Providing :=
  match providing with
  | [] => [(name, variable)]
  | (key, old) :: rest =>
      if String.eqb key name then (key, variable) :: rest
      else (key, old) :: dict_set rest name variable
  end.

Definition dict_values (providing : Providing) : list Var :=
  map snd providing.

(** [taken.add(variable)]. *)
Definition set_add (taken : list Var) (variable : Var) : list Var :=
  if bool_decide (variable ∈ taken) then taken else taken ++ [variable].

(** The attributes of a function body that the modelled methods read or
    write; [name], [is_lambda], [is_genexpr] and [local_locals] are as
    [__init__] leaves them. *)
Record BodyData := {
  sid : nat;
  kind : BodyKind;
  name : string;
  is_lambda : bool;
  is_genexpr : bool;
  local_locals : bool;
  unoptimized : bool;
  parameters : ParameterSpec;
  providing : Providing;
  taken : list Var;
  body : option Statement
}.

(** A scope with the chain of its providers, which ends in the module.
    Every method returns the chain as it has left it. *)
Inductive Scope :=
| CompiledPythonModule (module_id : nat) (module_providing : Providing)
| ExpressionFunctionBody (data : BodyData) (provider : Scope).

Definition scope_id (scope : Scope) : nat :=
  match scope with
  | CompiledPythonModule module_id _ => module_id
  | ExpressionFunctionBody data _ => sid data
  end.

Definition getProviding (scope : Scope) : Providing :=
  match scope with
  | CompiledPythonModule _ module_providing => module_providing
  | ExpressionFunctionBody data _ => providing data
  end.

Definition getTaken (scope : Scope) : list Var :=
  match scope with
  | CompiledPythonModule _ _ => []
  | ExpressionFunctionBody data _ => taken data
  end.

Definition getBody (scope : Scope) : option Statement :=
  match scope with
  | CompiledPythonModule _ _ => None
  | ExpressionFunctionBody data _ => body data
  end.


Definition Scope_isExpressionClassBody (scope : Scope) : bool :=
  match scope with
  | ExpressionFunctionBody data _ =>
      match kind data with ClassBody => true | _ => false end
  | _ => false
  end.

Definition Scope_isGenerator (scope : Scope) : bool :=
  match scope with
  | ExpressionFunctionBody data _ =>
      match kind data with GeneratorFunctionBody => true | _ => false end
  | _ => false
  end.

Definition isUnoptimized (scope : Scope) : bool :=
  match scope with
  | ExpressionFunctionBody data _ => unoptimized data
  | _ => false
  end.

Definition set_providing (data : BodyData) (new_providing : Providing)
    : BodyData :=
  {| sid := sid data; kind := kind data; name := name data;
     is_lambda := is_lambda data; is_genexpr := is_genexpr data;
     local_locals := local_locals data; unoptimized := unoptimized data;
     parameters := parameters data; providing := new_providing;
     taken := taken data; body := body data |}.

Definition set_taken (data : BodyData) (new_taken : list Var) : BodyData :=
  {| sid := sid data; kind := kind data; name := name data;
     is_lambda := is_lambda data; is_genexpr := is_genexpr data;
     local_locals := local_locals data; unoptimized := unoptimized data;
     parameters := parameters data; providing := providing data;
     taken := new_taken; body := body data |}.

Definition set_body (data : BodyData) (new_body : option Statement)
    : BodyData :=
  {| sid := sid data; kind := kind data; name := name data;
     is_lambda := is_lambda data; is_genexpr := is_genexpr data;
     local_locals := local_locals data; unoptimized := unoptimized data;
     parameters := parameters data; providing := providing data;
     taken := taken data; body := new_body |}.

(** [self.providing[variable_name] = variable]. *)
Definition setProvided (scope : Scope) (variable_name : string)
    (variable : Var) : Scope :=
  match scope with
  | CompiledPythonModule module_id module_providing =>
      CompiledPythonModule module_id
        (dict_set module_providing variable_name variable)
  | ExpressionFunctionBody data provider =>
      ExpressionFunctionBody
        (set_providing data (dict_set (providing data) variable_name variable))
        provider
  end.

(** [hasProvidedVariable] and [registerProvidedVariable] of
    [ClosureGiverNodeBase] ([NodeBases.py]): membership in [providing],
    and [providing[variable.getName()] = variable]. *)
Definition hasProvidedVariable (scope : Scope) (variable_name : string)
    : bool :=
  bool_decide (is_Some (dict_get (getProviding scope) variable_name)).

Definition registerProvidedVariable (scope : Scope) (variable : Var) : Scope :=
  setProvided scope (Var_getName variable) variable.

Definition registerProvidedVariables (scope : Scope) (variables : list Var)
    : Scope :=
  fold_left registerProvidedVariable variables scope.

(** [setBody], and [markAsUnoptimized] of
    [MarkUnoptimizedFunctionIndicator] ([IndicatorMixins.py]). *)
Definition setBody (scope : Scope) (new_body : option Statement) : Scope :=
  match scope with
  | ExpressionFunctionBody data provider =>
      ExpressionFunctionBody (set_body data new_body) provider
  | _ => scope
  end.

Definition markAsUnoptimized (scope : Scope) : Scope :=
  match scope with
  | ExpressionFunctionBody data provider =>
      ExpressionFunctionBody
        {| sid := sid data; kind := kind data; name := name data;
           is_lambda := is_lambda data; is_genexpr := is_genexpr data;
           local_locals := local_locals data; unoptimized := true;
           parameters := parameters data; providing := providing data;
           taken := taken data; body := body data |}
        provider
  | _ => scope
  end.

(** [getParentVariableProvider] of [ClosureTakerMixin]. *)
Definition getParentVariableProvider (scope : Scope) : Scope :=
  match scope with
  | ExpressionFunctionBody _ provider => provider
  | _ => scope
  end.

(** [getParentModule]: the module at the end of the provider chain. *)
Fixpoint getParentModule (scope : Scope) : Scope :=
  match scope with
  | CompiledPythonModule _ _ => scope
  | ExpressionFunctionBody _ provider => getParentModule provider
  end.

(** [ClosureTakerMixin.addClosureVariable]. *)
Definition addClosureVariable (scope : Scope) (variable : Var) : Scope :=
  match scope with
  | ExpressionFunctionBody data provider =>
      ExpressionFunctionBody (set_taken data (set_add (taken data) variable))
        provider
  | _ => scope
  end.

(** [hasTakenVariable] and [getTakenVariable] of [ClosureTakerMixin]:
    the taken variable of that name. *)
Definition getTakenVariable (scope : Scope) (variable_name : string)
    : option Var :=
  find (fun variable => String.eqb (Var_getName variable) variable_name)
       (getTaken scope).

Definition hasTakenVariable (scope : Scope) (variable_name : string) : bool :=
  bool_decide (is_Some (getTakenVariable scope variable_name)).

Section Scopes.

(** [Utils.python_version], e.g. 270, 330, 340, 350. *)
Variable python_version : Z.

(** [ExpressionFunctionBody.__init__] (for class bodies too, which
    pass [is_class]; generator bodies answer [isGenerator()] with true):
    the special names are normalised, the parameter variables are
    created for the new owner and registered.  [number] is the identity
    of the new object.  Registration with the module's function list is
    not modelled: no method here reads it.  A [Scope] is a module or a
    function body, so the loop that first skips outline bodies among the
    providers has nothing to skip: [provider] stands for the provider
    that this loop ends with.  The parameter variables
    ([parameters.getVariables()], outside the excerpt) are taken under
    the names of [getAllNames]; their order is that of this list. *)
Definition ExpressionFunctionBody_init (number : nat) (provider : Scope)
    (given_name : string) (given_kind : BodyKind)
    (given_parameters : ParameterSpec) : Result Scope :=
  let lambda := String.eqb given_name "<lambda>" in
  let name1 := if lambda then "lambda" else given_name in
  locals ← (if String.eqb name1 "<listcontraction>"
            then if (python_version <? 300)%Z then Raise AssertionError
                 else Ok (300 <=? python_version)%Z
            else Ok true);
  let name2 := if String.eqb name1 "<listcontraction>" then "" else name1 in
  let name3 := if String.eqb name2 "<setcontraction>" then "" else name2 in
  let name4 := if String.eqb name3 "<dictcontraction>" then "" else name3 in
  let genexpr := String.eqb name4 "<genexpr>" in
  let name5 := if genexpr then "" else name4 in
  let self :=
    ExpressionFunctionBody
      {| sid := number; kind := given_kind; name := name5;
         is_lambda := lambda; is_genexpr := genexpr;
         local_locals := locals; unoptimized := false;
         parameters := given_parameters; providing := [];
         taken := []; body := None |}
      provider in
  Ok (registerProvidedVariables self
        (map (ParameterVariable number) (getAllNames given_parameters))).

(** [getFunctionName]. *)
Definition getFunctionName (self : Scope) : string :=
  match self with
  | ExpressionFunctionBody data _ =>
      if is_lambda data then "<lambda>"
      else if is_genexpr data then "<genexpr>"
      else name data
  | CompiledPythonModule _ _ => ""
  end.

(** [getFunctionQualname].  [__init__] assigns the provider to
    [qualname_provider] and nothing in the excerpt assigns it again, so
    both branches of the version test read the provider. *)
Fixpoint getFunctionQualname (self : Scope) : string :=
  match self with
  | CompiledPythonModule _ _ => ""
  | ExpressionFunctionBody data parent_provider =>
      let function_name := getFunctionName self in
      let provider :=
        if (python_version <? 340)%Z then parent_provider
        else parent_provider in
      match provider with
      | CompiledPythonModule _ _ => function_name
      | ExpressionFunctionBody provider_data _ =>
          match kind provider_data with
          | ClassBody =>
              getFunctionQualname provider +:+ "." +:+ function_name
          | _ =>
              getFunctionQualname provider +:+ ".<locals>." +:+ function_name
          end
      end
  end.

(** [getVariableForClosure]: of [ExpressionFunctionBody], of
    [ExpressionClassBody], and, modelled from the spec, of the module
    ([CompiledPythonModule] is outside the excerpt): a name that nothing
    binds becomes a module variable, created on first use. *)
Fixpoint getVariableForClosure (self : Scope) (variable_name : string)
    : Var * Scope :=
  match self with
  | CompiledPythonModule module_id module_providing =>
      match dict_get module_providing variable_name with
      | Some variable => (variable, self)
      | None =>
          let variable := ModuleVariable module_id variable_name in
          (variable, setProvided self variable_name variable)
      end
  | ExpressionFunctionBody data provider =>
      let from_provider :=
        let '(variable, provider') :=
          getVariableForClosure provider variable_name in
        (variable, ExpressionFunctionBody data provider') in
      let own :=
        match dict_get (providing data) variable_name with
        | Some variable => (variable, self)
        | None => from_provider
        end in
      match kind data with
      | ClassBody =>
          if String.eqb variable_name "__class__" then
            if (python_version <? 300)%Z then from_provider else own
          else from_provider
      | _ => own
      end
  end.

(** Modelled from the spec: [ClosureTakerMixin.getClosureVariable] is in
    [NodeBases.py]; the closure search of the provider, whose result is
    recorded as taken (module variables are not closure variables). *)
Definition getClosureVariable (self : Scope) (variable_name : string)
    : Var * Scope :=
  match self with
  | CompiledPythonModule _ _ => getVariableForClosure self variable_name
  | ExpressionFunctionBody data provider =>
      let '(result, provider') :=
        getVariableForClosure provider variable_name in
      let self := ExpressionFunctionBody data provider' in
      if negb (isModuleVariable result)
      then (result, addClosureVariable self result)
      else (result, self)
  end.

(** [getVariableForReference]; a module looks the name up in itself. *)
Definition getVariableForReference (self : Scope) (variable_name : string)
    : Var * Scope :=
  match self with
  | CompiledPythonModule _ _ => getVariableForClosure self variable_name
  | ExpressionFunctionBody data _ =>
      match dict_get (providing data) variable_name with
      | Some result => (result, self)
      | None =>
          let '(result, self) := getClosureVariable self variable_name in
          let self :=
            if negb (isModuleVariable result)
            then registerProvidedVariable self result
            else self in
          if isUnoptimized self && isModuleVariable result then
            let result := MaybeLocalVariable (scope_id self) result in
            (result, registerProvidedVariable self result)
          else (result, self)
      end
  end.

(** [getVariableForAssignment], with [getProvidedVariable] of
    [ClosureGiverNodeBase] (the provided variable; when the name is new,
    [createProvidedVariable] makes one and it is stored under the name)
    and [createProvidedVariable] of the function body. *)
Fixpoint getVariableForAssignment (self : Scope) (variable_name : string)
    : Var * Scope :=
  match self with
  | CompiledPythonModule _ _ => getVariableForClosure self variable_name
  | ExpressionFunctionBody data provider =>
      match getTakenVariable self variable_name with
      | Some result => (result, self)
      | None =>
          match dict_get (providing data) variable_name with
          | Some result => (result, self)
          | None =>
              if local_locals data then
                let result := LocalVariable (sid data) variable_name in
                (result, setProvided self variable_name result)
              else
                let '(_, provider') :=
                  getVariableForAssignment provider variable_name in
                let '(result, self) :=
                  getClosureVariable
                    (ExpressionFunctionBody data provider') variable_name in
                (result, setProvided self variable_name result)
          end
      end
  end.

End Scopes.

(** ** Variable releases *)

(** [getLocalVariables]. *)
Definition getLocalVariables (self : Scope) : list Var :=
  filter (fun variable => isLocalVariable variable = true)
         (dict_values (getProviding self)).

(** [getUserLocalVariables]. *)
Definition getUserLocalVariables (self : Scope) : list Var :=
  filter (fun variable =>
            (isLocalVariable variable && negb (isParameterVariable variable)
             && bool_decide (getOwner variable = scope_id self)) = true)
         (dict_values (getProviding self)).

(** The loop of [addFunctionVariableReleases] that fills [releases]. *)
Fixpoint collectReleases (function : Scope) (variables : list Var)
    : list Statement :=
  match variables with
  | [] => []
  | variable :: rest =>
      if negb (bool_decide (getOwner variable = scope_id function)) then
        collectReleases function rest
      else if Scope_isGenerator function && isParameterVariable variable then
        collectReleases function rest
      else
        StatementReleaseVariable variable :: collectReleases function rest
  end.

(** [addFunctionVariableReleases]; the function body with its new
    statements.  Every class built on [ExpressionFunctionBody] answers
    [isExpressionFunctionBody()] with true, a module does not. *)
Definition addFunctionVariableReleases (function : Scope) : Result Scope :=
  match function with
  | CompiledPythonModule _ _ => Raise AssertionError
  | ExpressionFunctionBody data provider =>
      let releases := collectReleases function (getLocalVariables function) in
      match releases with
      | [] => Ok function
      | _ :: _ =>
          match getBody function with
          | None => Raise AttributeError
          | Some body =>
              let body :=
                if isStatementsFrame body
                then makeStatementsSequenceFromStatement body
                else body in
              let body := makeTryFinallyStatement body releases in
              Ok (ExpressionFunctionBody
                    (set_body data
                       (Some (makeStatementsSequenceFromStatement body)))
                    provider)
          end
      end
  end.

(** ** Statements of the specification, and data for the examples *)

(** The argument-shape gate in the words of the specification: no keyword
    arguments or a provably empty keyword-argument constant, and
    positional arguments that are a literal tuple or a constant. *)
Definition gate_as_specified (call_args call_kw : option Expr) : bool :=
  match call_kw with
  | None => true
  | Some (ExpressionConstantRef constant) => isEmptyDictConstant constant
  | Some _ => false
  end &&
  match call_args with
  | None => true
  | Some args => isExpressionConstantRef args || isExpressionMakeTuple args
  end.

(** The positional arguments of a call that passes the gate of the code:
    none, or the iteration values of a constant or tuple node. *)
Definition positionalArguments (call_args : option Expr)
    : option (list Expr) :=
  match call_args with
  | None => Some []
  | Some args =>
      if isExpressionConstantRef args || isExpressionMakeTuple args then
        match getIterationValues args with
        | Ok args_tuple => Some args_tuple
        | Raise _ => None
        end
      else None
  end.




(** The data of the function bodies of a chain, innermost first. *)
Fixpoint chainData (scope : Scope) : list BodyData :=
  match scope with
  | CompiledPythonModule _ _ => []
  | ExpressionFunctionBody data provider => data :: chainData provider
  end.

(** The invariant of a [providing] dictionary that [registerProvidedVariable]
    maintains: keys are distinct and each is the name of its variable. *)
Definition providing_ok (providing : Providing) : Prop :=
  NoDup (map fst providing) /\
  Forall (fun entry => Var_getName entry.2 = entry.1) providing.

(** The variables that [addFunctionVariableReleases] releases, as one
    filter over the values of [providing], in their order. *)
Definition releasedVariables (function : Scope) : list Var :=
  filter (fun variable =>
            (isLocalVariable variable
             && bool_decide (getOwner variable = scope_id function)
             && negb (Scope_isGenerator function
                      && isParameterVariable variable)) = true)
         (dict_values (getProviding function)).

(** A sequence or frame node, as [buildStatementsNode] builds them. *)
Definition sequenceNode (frame : bool) (statements : list Statement)
    : Statement :=
  if frame then StatementsFrame statements else StatementsSequence statements.

(** The wrapping of a frame that both builders apply before [setBody]. *)
Definition wrapFrame (statement : Statement) : Statement :=
  if isStatementsFrame statement
  then makeStatementsSequenceFromStatement statement
  else statement.

(** The statements of a non-generator body after the final return has
    been seen to: [raw] is [None] for an absent body, else whether the
    node is a frame and its statements. *)
Definition withFinalReturn (raw : option (bool * list Statement))
    : Statement :=
  match raw with
  | None => StatementsSequence [returnNone]
  | Some (frame, statements) =>
      if isStatementAborting (sequenceNode frame statements)
      then sequenceNode frame statements
      else sequenceNode frame (statements ++ [returnNone])
  end.

Definition rawNode (raw : option (bool * list Statement)) : option Statement :=
  match raw with
  | None => None
  | Some (frame, statements) => Some (sequenceNode frame statements)
  end.

Module Examples.

(** An oracle for [willRaiseException]: raise nodes raise. *)
Definition raiseNodesRaise (node : Expr) : bool :=
  match node with
  | ExpressionRaiseException _ => true
  | _ => false
  end.

(** What a binding gives to a parameter that takes its default: the
    matcher is told how many defaults there are, not what they are, so it
    can only mark such a parameter. *)
Definition default_value : Expr := ExpressionVariableRef "<default>".

(** Modelled from the spec: [matchCall] is in [ParameterSpecs.py]; a
    matcher of positional arguments that accounts for the catch-all
    list/dict parameters and the default count.  Parameters are bound by
    position; the last [num_defaults] of them may be left out and are
    then bound to [default_value]; surplus positional arguments go to the
    list catch-all when there is one; the dict catch-all is empty; any
    other count is [TooManyArguments].  It binds the names it is given,
    and no others. *)
Definition positionalMatchCall (func_name : string) (args : list string)
    (star_list_arg star_dict_arg : option string) (num_defaults : nat)
    (positional : list Expr) (pairs : list (string * Expr))
    : gmap string Expr + TooManyArguments :=
  let num_pos := length positional in
  let num_args := length args in
  if (num_pos + num_defaults <? num_args)
     || ((num_args <? num_pos) && negb (bool_decide (is_Some star_list_arg)))
  then
    inr (mkTooManyArguments
           (TypeError (func_name +:+ "() got a wrong number of arguments")))
  else
    let bound : gmap string Expr :=
      list_to_map
        (zip args
           (positional ++ replicate (num_args - num_pos) default_value)) in
    let with_list :=
      match star_list_arg with
      | Some star =>
          <[star := ExpressionMakeTuple (drop num_args positional)]> bound
      | None => bound
      end in
    inl match star_dict_arg with
        | Some star => <[star := ExpressionConstantRef (ConstDict [])]> with_list
        | None => with_list
        end.

(** The side effects before a call: its argument expressions. *)
Definition argumentSideEffects (call_node : Expr) : list Expr :=
  match call_node with
  | ExpressionCall _ (Some (ExpressionMakeTuple elements)) _ => elements
  | _ => []
  end.

Definition spec_of (names : list string) (defaults : nat) : ParameterSpec :=
  {| normal_args := names; kw_only_args := []; list_star_arg := None;
     dict_star_arg := None; default_count := defaults |}.

Definition plain_function (function_name : string) (spec : ParameterSpec)
    (may_raise : bool) : FunctionRef :=
  ExpressionFunctionRef
    {| view_name := function_name; view_kind := FunctionBody;
       view_parameters := spec; view_body_mayRaiseException := may_raise |}.

Definition call_g : Expr :=
  ExpressionCall (ExpressionVariableRef "g") (Some (ExpressionMakeTuple [])) None.

Definition raise_error : Expr :=
  ExpressionRaiseException (TypeError "unsupported operand").

Definition int (z : Z) : Expr := ExpressionConstantRef (ConstInt z).

(** [def f(a = g(), b = <raises>)]. *)
Definition creation_ab : Expr :=
  makeExpressionFunctionCreation
    (plain_function "f" (spec_of ["a"; "b"] 2) false)
    [call_g; raise_error] None None.

(** [def f(a = g(), *, k = <raises>)]. *)
Definition creation_a_k : Expr :=
  makeExpressionFunctionCreation
    (plain_function "f"
       {| normal_args := ["a"]; kw_only_args := ["k"];
          list_star_arg := None; dict_star_arg := None;
          default_count := 1 |} false)
    [call_g] (Some raise_error) None.

(** [def f(): ...] whose body cannot raise, and [def f(a, b, c = ...)]. *)
Definition creation_f : Expr :=
  makeExpressionFunctionCreation (plain_function "f" (spec_of [] 0) false)
    [] None None.

Definition creation_abc : Expr :=
  makeExpressionFunctionCreation
    (plain_function "f" (spec_of ["a"; "b"; "c"] 1) false)
    [int 0] None None.

(** [def f(a, *, k = 0)] and the call [f(1)], which is a valid call. *)
Definition spec_a_kw_only : ParameterSpec :=
  {| normal_args := ["a"]; kw_only_args := ["k"]; list_star_arg := None;
     dict_star_arg := None; default_count := 0 |}.

Definition creation_a_kw_only : Expr :=
  makeExpressionFunctionCreation (plain_function "f" spec_a_kw_only false)
    [] (Some (ExpressionConstantRef (ConstDict [(ConstStr "k", ConstInt 0)])))
    None.

Definition call_a_kw_only : Expr :=
  ExpressionCall creation_a_kw_only (Some (ExpressionMakeTuple [int 1])) None.

Definition empty_dict : Expr := ExpressionConstantRef (ConstDict []).


Definition call_f_empty_kw : Expr :=
  ExpressionCall creation_f (Some (ExpressionMakeTuple [])) (Some empty_dict).

Definition call_abc (arguments : list Z) : Expr :=
  ExpressionCall creation_abc (Some (ExpressionMakeTuple (map int arguments)))
    None.

(** Scopes.  The module is scope 0. *)
Definition module0 : Scope := CompiledPythonModule 0 [].

Definition no_parameters : ParameterSpec := spec_of [] 0.

(** The scope that a [Result] holds; the module stands in for a failed
    construction, which the examples do not have. *)
Definition built (scope : Result Scope) : Scope :=
  match scope with
  | Ok scope => scope
  | Raise _ => module0
  end.

(** [def f(a): x = a], with its statements as [buildFunctionNode] sets
    them. *)
Definition function_f_a_x : Scope :=
  let f := built (ExpressionFunctionBody_init 350 1 module0 "f" FunctionBody
                    (spec_of ["a"] 0)) in
  let f := (getVariableForAssignment 350 f "x").2 in
  setBody f
    (match buildFunctionNode_body "Function"
             (Some (StatementsSequence [StatementOther "x = a" false])) with
     | Ok statements => Some statements
     | Raise _ => None
     end).

(** [def outer(): x = ...; def mid(): def inner(): x], before [inner]
    refers to [x]. *)
Definition scope_outer : Scope :=
  let outer := built (ExpressionFunctionBody_init 350 1 module0 "outer"
                        FunctionBody no_parameters) in
  (getVariableForAssignment 350 outer "x").2.

Definition scope_mid : Scope :=
  built (ExpressionFunctionBody_init 350 2 scope_outer "mid" FunctionBody
           no_parameters).

Definition scope_inner : Scope :=
  built (ExpressionFunctionBody_init 350 3 scope_mid "inner" FunctionBody
           no_parameters).

(** A function at module level that contains [exec] or a star import. *)
Definition scope_unoptimized : Scope :=
  markAsUnoptimized
    (built (ExpressionFunctionBody_init 270 1 module0 "f" FunctionBody
              no_parameters)).

End Examples.

(** ** Further methods of the function body *)

(** [del providing[name]] on a key that is present, and [taken.remove]. *)
Fixpoint dict_del (providing : Providing) (name : string) : Providing :=
  match providing with
  | [] => []
  | (key, variable) :: rest =>
      if String.eqb key name then rest
      else (key, variable) :: dict_del rest name
  end.

Definition set_remove (taken : list Var) (variable : Var) : list Var :=
  filter (fun taken_variable => taken_variable <> variable) taken.

(** [removeUserVariable]: the variable must be a value of [providing]; the
    entry under its name is deleted ([KeyError] when there is none); a
    parameter variable of the body itself trips the second assertion. *)
Definition removeUserVariable (self : Scope) (variable : Var) : Result Scope :=
  match self with
  | CompiledPythonModule _ _ => Raise AttributeError
  | ExpressionFunctionBody data provider =>
      if negb (bool_decide (variable ∈ dict_values (providing data))) then
        Raise AssertionError
      else
        match dict_get (providing data) (Var_getName variable) with
        | None => Raise (KeyError (Var_getName variable))
        | Some _ =>
            let data :=
              set_providing data
                (dict_del (providing data) (Var_getName variable)) in
            if isParameterVariable variable
               && bool_decide (getOwner variable = sid data)
            then Raise AssertionError
            else Ok (ExpressionFunctionBody data provider)
        end
  end.

(** [removeClosureVariable]: as above, and the variable leaves [taken]
    ([KeyError] when it is not taken). *)
Definition removeClosureVariable (self : Scope) (variable : Var)
    : Result Scope :=
  self ← removeUserVariable self variable;
  match self with
  | CompiledPythonModule _ _ => Raise AttributeError
  | ExpressionFunctionBody data provider =>
      if bool_decide (variable ∈ taken data) then
        Ok (ExpressionFunctionBody
              (set_taken data (set_remove (taken data) variable)) provider)
      else Raise (KeyError (Var_getName variable))
  end.

(** [demoteClosureVariable], as far as the scope goes: the taken variable
    is replaced by a new local variable of the body under the same name.
    [updateVariableUsage] and [VariableRegistry.addVariableUsage] act on
    the variable references of the tree and on the registry, which are
    not part of a scope. *)
Definition demoteClosureVariable (self : Scope) (variable : Var)
    : Result Scope :=
  match self with
  | CompiledPythonModule _ _ => Raise AttributeError
  | ExpressionFunctionBody data provider =>
      if negb (isLocalVariable variable) then Raise AssertionError
      else if negb (bool_decide (variable ∈ taken data)) then
        Raise (KeyError (Var_getName variable))
      else
        let data := set_taken data (set_remove (taken data) variable) in
        if bool_decide (getOwner variable = sid data) then Raise AssertionError
        else
          let new_variable :=
            LocalVariable (sid data) (Var_getName variable) in
          Ok (setProvided (ExpressionFunctionBody data provider)
                (Var_getName variable) new_variable)
  end.

(** [getContainingClassDictCreation]. *)
Fixpoint getContainingClassDictCreation (self : Scope) : option Scope :=
  match self with
  | CompiledPythonModule _ _ => None
  | ExpressionFunctionBody data provider =>
      match kind data with
      | ClassBody => Some self
      | _ => getContainingClassDictCreation provider
      end
  end.

(** The attribute [needs_generator_return_exit] of a generator body,
    which starts as [False] (0), with
    [markAsNeedsGeneratorReturnHandling], [needsGeneratorReturnHandling]
    and [needsGeneratorReturnExit]. *)
Definition markAsNeedsGeneratorReturnHandling
    (needs_generator_return_exit value : nat) : nat :=
  Nat.max needs_generator_return_exit value.

Definition needsGeneratorReturnHandling (needs_generator_return_exit : nat)
    : bool :=
  needs_generator_return_exit =? 2.

Definition needsGeneratorReturnExit (needs_generator_return_exit : nat)
    : bool :=
  negb (needs_generator_return_exit =? 0).

Section FunctionCreationMayRaise.

(** [node.mayRaiseException(exception_type)] of the child nodes. *)
Variable child_mayRaiseException : Expr -> bool.

(** [ExpressionFunctionCreation.mayRaiseException]. *)
Definition FunctionCreation_mayRaiseException (self : Expr) : bool :=
  match self with
  | ExpressionFunctionCreation _ defaults kw_defaults annotations =>
      if existsb child_mayRaiseException defaults then true
      else if match kw_defaults with
              | Some kw => child_mayRaiseException kw
              | None => false
              end then true
      else match annotations with
           | Some ann => child_mayRaiseException ann
           | None => false
           end
  | _ => false
  end.

End FunctionCreationMayRaise.

(** ** Decorators and keyword-only defaults of a function definition *)

Section Decorators.

(** The node [ExpressionBuiltinRef(builtin_name = "staticmethod")]. *)
Variable staticmethod_ref : Expr.

(** [ExpressionCallNoKeywords(called, args)]. *)
Definition ExpressionCallNoKeywords (called args : Expr) : Expr :=
  ExpressionCall called (Some args) None.

(** The loop [for decorator in decorators] of [buildFunctionNode] and
    [buildAsyncFunctionNode]. *)
Definition applyDecorators (decorators : list Expr) (function_creation : Expr)
    : Expr :=
  fold_left
    (fun decorated_function decorator =>
       ExpressionCallNoKeywords decorator
         (ExpressionMakeTuple [decorated_function]))
    decorators function_creation.

(** What [buildFunctionNode] assigns to the function's name:
    [decorator_list] holds the built decorator expressions in the order
    of the source, [function_name] is [node.name]. *)
Definition buildFunctionNode_decorated (provider : Scope)
    (function_name : string) (decorator_list : list Expr)
    (function_creation : Expr) : Expr :=
  let decorators := rev decorator_list in
  let decorators :=
    if String.eqb function_name "__new__"
       && bool_decide (decorators = [])
       && Scope_isExpressionClassBody provider
    then [staticmethod_ref]
    else decorators in
  applyDecorators decorators function_creation.

End Decorators.

(** The loop of [buildParameterKwDefaults] over
    [zip(kw_only_names, node.args.kw_defaults)]; a default is [None] or
    the node built for it.  The result is [(keys, values)]. *)
Fixpoint buildParameterKwDefaults_loop (keys values : list Expr)
    (pairs : list (string * option Expr)) : list Expr * list Expr :=
  match pairs with
  | [] => (keys, values)
  | (kw_only_name, kw_default) :: rest =>
      match kw_default with
      | Some built =>
          buildParameterKwDefaults_loop
            (keys ++ [ExpressionConstantRef (ConstStr kw_only_name)])
            (values ++ [built]) rest
      | None => buildParameterKwDefaults_loop keys values rest
      end
  end.

Section KwDefaults.

Variable python_version : Z.

(** [makeDictCreationOrConstant(keys, values, lazy_order = False)] of
    [nuitka/tree/Helpers.py]. *)
Variable makeDictCreationOrConstant : list Expr -> list Expr -> Expr.

(** [buildParameterKwDefaults]. *)
Definition buildParameterKwDefaults (kw_only_names : list string)
    (kw_defaults : list (option Expr)) : option Expr :=
  if (300 <=? python_version)%Z then
    match kw_only_names with
    | [] => None
    | _ :: _ =>
        let '(keys, values) :=
          buildParameterKwDefaults_loop [] []
            (zip kw_only_names kw_defaults) in
        Some (makeDictCreationOrConstant keys values)
    end
  else None.

End KwDefaults.

(** ** Further statements about scopes *)

(** Every [providing] dictionary of the chain is well formed. *)
Fixpoint scope_ok (scope : Scope) : Prop :=
  match scope with
  | CompiledPythonModule _ module_providing => providing_ok module_providing
  | ExpressionFunctionBody data provider =>
      providing_ok (providing data) /\ scope_ok provider
  end.

(** The chain without its class bodies. *)
Fixpoint withoutClassBodies (scope : Scope) : Scope :=
  match scope with
  | CompiledPythonModule _ _ => scope
  | ExpressionFunctionBody data provider =>
      match kind data with
      | ClassBody => withoutClassBodies provider
      | _ => ExpressionFunctionBody data (withoutClassBodies provider)
      end
  end.

(** The scopes of a chain, innermost first, without the module. *)
Fixpoint chainScopes (scope : Scope) : list Scope :=
  match scope with
  | CompiledPythonModule _ _ => []
  | ExpressionFunctionBody _ provider => scope :: chainScopes provider
  end.

(** What the qualified name is made of. *)
Definition namingData (data : BodyData) : BodyKind * string * bool * bool :=
  (kind data, name data, is_lambda data, is_genexpr data).

(** ** Scopes with a class body *)

Module ClassExamples.

(** [def outer(): x = ...; class C: x = ...; def method(self): x], before
    [method] refers to [x]. *)
Definition scope_class : Scope :=
  let class_body :=
    Examples.built (ExpressionFunctionBody_init 350 2 Examples.scope_outer
                      "C" ClassBody Examples.no_parameters) in
  (getVariableForAssignment 350 class_body "x").2.

Definition scope_method : Scope :=
  Examples.built (ExpressionFunctionBody_init 350 3 scope_class "method"
                    FunctionBody (Examples.spec_of ["self"] 0)).

(** [inner] of the examples, after it has referred to [x]. *)
Definition scope_inner_x : Scope :=
  (getVariableForReference 350 Examples.scope_inner "x").2.

End ClassExamples.

(* ================================================================== *)
(** * Part II: theorems                                                *)
(* ================================================================== *)

(** ** Function creation *)

Section FunctionCreationFacts.

Variable willRaiseException : Expr -> bool.

Lemma computeExpression_defaults_none self side_effects defaults :
  Forall (fun default => willRaiseException default = false) defaults ->
  computeExpression_defaults willRaiseException self side_effects defaults
  = None.
Proof.
  induction 1 as [|default rest Hd _ IH]; simpl; [done|].
  by rewrite Hd.
Qed.

(** The first default that will raise is returned with the side effects
    the loop started with, whatever precedes it. *)
Lemma computeExpression_defaults_first self side_effects before default after :
  Forall (fun d => willRaiseException d = false) before ->
  willRaiseException default = true ->
  computeExpression_defaults willRaiseException self side_effects
    (before ++ default :: after)
  = Some (wrapExpressionWithSideEffects side_effects self default,
          Some "new_raise", Some "Default value contains raise.").
Proof.
  intros Hbefore Hd.
  induction Hbefore as [|d rest Hx _ IH]; simpl.
  - by rewrite Hd.
  - by rewrite Hx.
Qed.

(** What [computeExpression] does when a default raises: the defaults
    before it are not part of the result. *)
Lemma computeExpression_default_raises
    function_ref before default after kw_defaults annotations :
  let self := ExpressionFunctionCreation function_ref
                (before ++ default :: after) kw_defaults annotations in
  Forall (fun d => willRaiseException d = false) before ->
  willRaiseException default = true ->
  computeExpression willRaiseException self
  = (default, Some "new_raise", Some "Default value contains raise.").
Proof.
  intros self Hbefore Hd. unfold self, computeExpression.
  by rewrite (computeExpression_defaults_first _ [] _ _ _ Hbefore Hd).
Qed.

(** Nothing raises: the expression is returned unchanged. *)
Lemma computeExpression_unchanged
    function_ref defaults kw_defaults annotations :
  let self := ExpressionFunctionCreation function_ref defaults kw_defaults
                annotations in
  Forall (fun d => willRaiseException d = false) defaults ->
  (forall kw, kw_defaults = Some kw -> willRaiseException kw = false) ->
  (forall ann, annotations = Some ann -> willRaiseException ann = false) ->
  computeExpression willRaiseException self = unchanged self.
Proof.
  intros self Hd Hkw Hann. unfold self, computeExpression.
  rewrite (computeExpression_defaults_none _ _ _ Hd).
  destruct kw_defaults as [kw|].
  - rewrite (Hkw kw eq_refl).
    destruct annotations as [ann|]; [by rewrite (Hann ann eq_refl)|done].
  - destruct annotations as [ann|]; [by rewrite (Hann ann eq_refl)|done].
Qed.

End FunctionCreationFacts.

(** C1, evaluated on [def f(a = g(), b = <raises>)] and on
    [def f(a = g(), *, k = <raises>)]: the default [g()] is evaluated
    before the raising sub-expression, but [computeExpression] returns the
    raising sub-expression alone; the result that keeps the call of [g] as
    a side effect, as the claim describes it, is not what is computed. *)
Theorem computeExpression_drops_evaluated_defaults :
  computeExpression Examples.raiseNodesRaise Examples.creation_ab
  = (Examples.raise_error, Some "new_raise",
     Some "Default value contains raise.")
  /\ computeExpression Examples.raiseNodesRaise Examples.creation_a_k
     = (Examples.raise_error, Some "new_raise",
        Some "Keyword default values contain raise.")
  /\ (computeExpression Examples.raiseNodesRaise Examples.creation_ab).1.1
     <> wrapExpressionWithSideEffects [Examples.call_g] Examples.creation_ab
          Examples.raise_error
  /\ (computeExpression Examples.raiseNodesRaise Examples.creation_a_k).1.1
     <> wrapExpressionWithSideEffects [Examples.call_g] Examples.creation_a_k
          Examples.raise_error.
Proof.
  repeat split; try reflexivity; vm_compute; discriminate.
Qed.

(** ** Calls of a created function *)

Lemma lookupAll_bound (args_dict : gmap string Expr) (names : list string) :
  (forall name, name ∈ names -> is_Some (args_dict !! name)) ->
  exists values,
    lookupAll args_dict names = Ok values /\
    Forall2 (fun name value => args_dict !! name = Some value) names values.
Proof.
  induction names as [|name rest IH]; intros Hbound; simpl.
  - exists []. split; [done|constructor].
  - destruct (Hbound name) as [value Hvalue]; [set_solver|].
    destruct IH as (values & Hvalues & Hall); [intros; apply Hbound; set_solver|].
    exists (value :: values). rewrite Hvalue, Hvalues. split; [done|].
    by constructor.
Qed.

(** A declared name that the dictionary lacks stops the comprehension
    with a [KeyError]. *)
Lemma lookupAll_unbound (args_dict : gmap string Expr) (names : list string)
    name :
  name ∈ names -> args_dict !! name = None ->
  exists missing,
    missing ∈ names /\ args_dict !! missing = None
    /\ lookupAll args_dict names = Raise (KeyError missing).
Proof.
  induction names as [|first rest IH]; intros Hin Hname.
  - by apply elem_of_nil in Hin.
  - simpl. destruct (args_dict !! first) as [value|] eqn:Hfirst.
    + apply elem_of_cons in Hin as [->|Hin]; [by rewrite Hname in Hfirst|].
      destruct (IH Hin Hname) as (missing & Hmissing & Hnone & ->).
      exists missing. split; [by right|done].
    + exists first. split; [by left|done].
Qed.


Section CallSiteFacts.

Variable matchCall :
  string -> list string -> option string -> option string -> nat ->
  list Expr -> list (string * Expr) ->
  gmap string Expr + TooManyArguments.
Variable extractPreCallSideEffects : Expr -> list Expr.
Variable isExperimental : bool.

(** The two tests on [call_kw] amount to one, and the shape of
    [call_args] decides the rest. *)
Lemma computeExpressionCall_unfold
    function_ref defaults kw_defaults annotations
    call_node call_args call_kw constraint_collection :
  let self := ExpressionFunctionCreation function_ref defaults kw_defaults
                annotations in
  computeExpressionCall matchCall extractPreCallSideEffects
    self call_node call_args call_kw constraint_collection
  = (match call_kw with
     | Some _ => Ok (unchanged call_node)
     | None =>
         match call_args with
         | None =>
             matchAndReplace matchCall extractPreCallSideEffects
               self call_node function_ref []
         | Some args =>
             if isExpressionConstantRef args || isExpressionMakeTuple args
             then
               args_tuple ← getIterationValues args;
               matchAndReplace matchCall extractPreCallSideEffects
                 self call_node function_ref args_tuple
             else Raise AssertionError
         end
     end,
     onExceptionRaiseExit BaseException constraint_collection).
Proof.
  intros self. unfold computeExpressionCall, self.
  cbn [getFunctionRef].
  destruct call_kw as [kw|].
  - destruct (call_kw_is_not_empty_constant (Some kw)); [done|].
    by case_bool_decide.
  - cbn [call_kw_is_not_empty_constant].
    case_bool_decide; [done|].
    destruct call_args as [args|]; [|done].
    by destruct (isExpressionConstantRef args || isExpressionMakeTuple args).
Qed.

(** C2, as the code has it: every call that carries a keyword-argument
    node is returned untouched, the provably empty constant included;
    parameter matching is reached exactly when there is no such node and
    the positional arguments are absent, a constant or a tuple creation
    (with the values that iterating over them gives); an assertion rejects
    any other positional argument node. *)
Theorem computeExpressionCall_gate
    function_ref defaults kw_defaults annotations
    call_node call_args call_kw constraint_collection :
  let self := ExpressionFunctionCreation function_ref defaults kw_defaults
                annotations in
  let result :=
    (computeExpressionCall matchCall extractPreCallSideEffects
       self call_node call_args call_kw constraint_collection).1 in
  (forall kw, call_kw = Some kw -> result = Ok (unchanged call_node))
  /\ (forall args_tuple,
        call_kw = None ->
        positionalArguments call_args = Some args_tuple ->
        result = matchAndReplace matchCall extractPreCallSideEffects
                   self call_node function_ref args_tuple)
  /\ (forall args,
        call_kw = None -> call_args = Some args ->
        isExpressionConstantRef args = false ->
        isExpressionMakeTuple args = false ->
        result = Raise AssertionError).
Proof.
  intros self result. subst result self.
  rewrite computeExpressionCall_unfold. simpl.
  split; [|split].
  - by intros kw ->.
  - intros args_tuple -> Hargs. unfold positionalArguments in Hargs.
    destruct call_args as [args|]; [|by injection Hargs as <-].
    destruct (isExpressionConstantRef args || isExpressionMakeTuple args);
      [|done].
    destruct (getIterationValues args); [|done].
    by injection Hargs as <-.
  - intros args -> -> Hconstant Htuple. by rewrite Hconstant, Htuple.
Qed.

(** The two rewrites of a call that passes the gate with the positional
    arguments [args_tuple], for a match that binds every declared name.
    Either [matchCall] returned a dictionary and the result is a direct
    call whose values are the dictionary's entries for the declared names,
    in their order; or it raised [TooManyArguments] and the result
    evaluates the side effects that precede the call and raises the
    carried exception. *)
Theorem computeExpressionCall_matching
    function_ref defaults kw_defaults annotations
    call_node call_args args_tuple constraint_collection :
  let self := ExpressionFunctionCreation function_ref defaults kw_defaults
                annotations in
  let call_spec := getParameters (getFunctionBody function_ref) in
  let outcome :=
    matchCall (getName self) (getArgumentNames call_spec)
      (getStarListArgumentName call_spec) (getStarDictArgumentName call_spec)
      (getDefaultCount call_spec) args_tuple [] in
  let result :=
    (computeExpressionCall matchCall extractPreCallSideEffects
       self call_node call_args None constraint_collection).1 in
  positionalArguments call_args = Some args_tuple ->
  (forall args_dict name,
     outcome = inl args_dict -> name ∈ getAllNames call_spec ->
     is_Some (args_dict !! name)) ->
  (exists args_dict values,
     outcome = inl args_dict /\
     Forall2 (fun name value => args_dict !! name = Some value)
       (getAllNames call_spec) values /\
     result = Ok (ExpressionFunctionCall self values,
                  Some "new_statements",
                  Some ("Replaced call to created function body '"
                        +:+ getName self +:+ "' with direct function call.")))
  \/
  (exists e,
     outcome = inr e /\
     result = Ok (wrapExpressionWithSideEffects
                    (extractPreCallSideEffects call_node) call_node
                    (ExpressionRaiseException (getRealException e)),
                  Some "new_raise",
                  Some ("Replaced call to created function body '"
                        +:+ getName self +:+ "' to argument error"))).
Proof.
  intros self call_spec outcome result Hargs Hbound.
  assert (result = matchAndReplace matchCall extractPreCallSideEffects
                     self call_node function_ref args_tuple) as ->.
  { subst result self. rewrite computeExpressionCall_unfold. simpl.
    unfold positionalArguments in Hargs.
    destruct call_args as [args|]; [|by inversion Hargs].
    destruct (isExpressionConstantRef args || isExpressionMakeTuple args);
      [|done].
    destruct (getIterationValues args); by inversion Hargs. }
  unfold matchAndReplace. fold call_spec. fold outcome.
  clearbody outcome.
  destruct outcome as [args_dict|e].
  - left.
    destruct (lookupAll_bound args_dict (getAllNames call_spec))
      as (values & Hvalues & Hall); [by eauto|].
    exists args_dict, values. by rewrite Hvalues.
  - right. by exists e.
Qed.

(** C3: the code against the claim.  [matchCall] is given the positional
    names and the two catch-all names, but the values are then looked up
    under every name of [getAllNames], keyword-only names included, and
    only [TooManyArguments] is caught.  So for a callee with a
    keyword-only parameter, and a matcher that binds no other names than
    those it is given, a call that passes the gate is never turned into a
    direct call: either the matcher raised [TooManyArguments] and the call
    becomes the raise, or the matcher succeeded and [computeExpressionCall]
    itself ends in the [KeyError] of a declared name that has no binding,
    which is neither of the two outcomes of the claim. *)
Theorem computeExpressionCall_keyword_only_aborts
    function_ref defaults kw_defaults annotations
    call_node call_args args_tuple constraint_collection keyword_only :
  let self := ExpressionFunctionCreation function_ref defaults kw_defaults
                annotations in
  let call_spec := getParameters (getFunctionBody function_ref) in
  let given_names :=
    getArgumentNames call_spec
    ++ option_list (getStarListArgumentName call_spec)
    ++ option_list (getStarDictArgumentName call_spec) in
  let outcome :=
    matchCall (getName self) (getArgumentNames call_spec)
      (getStarListArgumentName call_spec) (getStarDictArgumentName call_spec)
      (getDefaultCount call_spec) args_tuple [] in
  let result :=
    (computeExpressionCall matchCall extractPreCallSideEffects
       self call_node call_args None constraint_collection).1 in
  positionalArguments call_args = Some args_tuple ->
  keyword_only ∈ kw_only_args call_spec ->
  keyword_only ∉ given_names ->
  (forall args_dict name,
     outcome = inl args_dict -> is_Some (args_dict !! name) ->
     name ∈ given_names) ->
  (exists e,
     outcome = inr e /\
     result = Ok (wrapExpressionWithSideEffects
                    (extractPreCallSideEffects call_node) call_node
                    (ExpressionRaiseException (getRealException e)),
                  Some "new_raise",
                  Some ("Replaced call to created function body '"
                        +:+ getName self +:+ "' to argument error")))
  \/
  (exists args_dict missing,
     outcome = inl args_dict /\
     missing ∈ getAllNames call_spec /\
     args_dict !! missing = None /\
     result = Raise (KeyError missing)).
Proof.
  intros self call_spec given_names outcome result Hargs Hkeyword Hfresh
    Hgiven.
  assert (result = matchAndReplace matchCall extractPreCallSideEffects
                     self call_node function_ref args_tuple) as ->.
  { subst result self. rewrite computeExpressionCall_unfold. simpl.
    unfold positionalArguments in Hargs.
    destruct call_args as [args|]; [|by inversion Hargs].
    destruct (isExpressionConstantRef args || isExpressionMakeTuple args);
      [|done].
    destruct (getIterationValues args); by inversion Hargs. }
  unfold matchAndReplace. fold call_spec. fold outcome.
  destruct outcome as [args_dict|e] eqn:Houtcome.
  - right.
    assert (args_dict !! keyword_only = None) as Hunbound.
    { destruct (args_dict !! keyword_only) as [value|] eqn:Hvalue; [|done].
      destruct Hfresh. apply (Hgiven args_dict); [done|].
      by rewrite Hvalue. }
    destruct (lookupAll_unbound args_dict (getAllNames call_spec)
                keyword_only) as (missing & Hmissing & Hnone & Hraise);
      [|done|].
    { unfold getAllNames. apply elem_of_app. right.
      apply elem_of_app. by left. }
    exists args_dict, missing. by rewrite Hraise.
  - left. by exists e.
Qed.

(** C4: the call cost, and when a direct call is in-lined. *)
Theorem call_cost_and_inlining
    function_ref defaults kw_defaults annotations values provider
    constraint_collection :
  let function := ExpressionFunctionCreation function_ref defaults kw_defaults
                    annotations in
  let function_body := getFunctionBody function_ref in
  let self := ExpressionFunctionCall function values in
  let cost := getCallCost isExperimental function values in
  let result :=
    (FunctionCall_computeExpression isExperimental provider self
       constraint_collection).1 in
  let inlined :=
    Ok (ExpressionOutlineBody provider function_ref values,
        Some "new_statements", Some "Function call in-lined.") in
  cost = (if negb isExperimental then None
          else if isGenerator function_body then None
          else if isExpressionClassBody function_body then None
          else if mayRaiseException function_body then Some 60
          else Some 20)
  /\ (result = inlined <-> exists c, cost = Some c /\ c < 50)
  /\ (result = inlined \/ result = Ok (unchanged self)).
Proof.
  intros function function_body self cost result inlined.
  split; [reflexivity|].
  unfold result, inlined, self, FunctionCall_computeExpression. simpl.
  fold cost. unfold cost_allows_inlining.
  destruct cost as [c|]; simpl.
  - destruct (Nat.ltb_spec c 50); simpl.
    + split; [|by left]. split; [by eauto|done].
    + split; [|by right]. split; [done|].
      intros (c' & [= <-] & ?). lia.
  - split; [|by right]. split; [done|]. by intros (c' & ? & _).
Qed.






End CallSiteFacts.

(** *** The call-site rewrites on concrete calls *)

(** C2 fails as stated on [f( **{} )], where [f] takes no parameter: the
    gate of the specification lets the call pass and parameter matching
    would turn it into a direct call, but the code returns the call
    untouched. *)
Lemma empty_keyword_constant_is_left_untouched :
  gate_as_specified (Some (ExpressionMakeTuple [])) (Some Examples.empty_dict)
  = true
  /\ (computeExpressionCall Examples.positionalMatchCall
        Examples.argumentSideEffects Examples.creation_f
        Examples.call_f_empty_kw (Some (ExpressionMakeTuple []))
        (Some Examples.empty_dict) []).1
     = Ok (unchanged Examples.call_f_empty_kw)
  /\ matchAndReplace Examples.positionalMatchCall
       Examples.argumentSideEffects Examples.creation_f
       Examples.call_f_empty_kw
       (Examples.plain_function "f" (Examples.spec_of [] 0) false) []
     = Ok (ExpressionFunctionCall Examples.creation_f [],
           Some "new_statements",
           Some "Replaced call to created function body 'f' with direct function call.")
  /\ (computeExpressionCall Examples.positionalMatchCall
        Examples.argumentSideEffects Examples.creation_f
        Examples.call_f_empty_kw (Some (ExpressionMakeTuple []))
        (Some Examples.empty_dict) []).1
     <> matchAndReplace Examples.positionalMatchCall
          Examples.argumentSideEffects Examples.creation_f
          Examples.call_f_empty_kw
          (Examples.plain_function "f" (Examples.spec_of [] 0) false) [].
Proof.
  repeat split; try (vm_compute; reflexivity).
  vm_compute. discriminate.
Qed.

(** [f(1, 2, 3)] for [def f(a, b, c = ...)] becomes a direct call with the
    values in the order of the parameters. *)
Lemma computeExpressionCall_matching_witness :
  (exists args_dict values,
     Examples.positionalMatchCall "f" ["a"; "b"; "c"] None None 1
       (map Examples.int [1; 2; 3]%Z) [] = inl args_dict /\
     Forall2 (fun name value => args_dict !! name = Some value)
       ["a"; "b"; "c"] values /\
     (computeExpressionCall Examples.positionalMatchCall
        Examples.argumentSideEffects Examples.creation_abc
        (Examples.call_abc [1; 2; 3]%Z)
        (Some (ExpressionMakeTuple (map Examples.int [1; 2; 3]%Z))) None []).1
     = Ok (ExpressionFunctionCall Examples.creation_abc values,
           Some "new_statements",
           Some ("Replaced call to created function body '"
                 +:+ "f" +:+ "' with direct function call.")))
  \/
  (exists e,
     Examples.positionalMatchCall "f" ["a"; "b"; "c"] None None 1
       (map Examples.int [1; 2; 3]%Z) [] = inr e /\
     (computeExpressionCall Examples.positionalMatchCall
        Examples.argumentSideEffects Examples.creation_abc
        (Examples.call_abc [1; 2; 3]%Z)
        (Some (ExpressionMakeTuple (map Examples.int [1; 2; 3]%Z))) None []).1
     = Ok (wrapExpressionWithSideEffects
             (Examples.argumentSideEffects (Examples.call_abc [1; 2; 3]%Z))
             (Examples.call_abc [1; 2; 3]%Z)
             (ExpressionRaiseException (getRealException e)),
           Some "new_raise",
           Some ("Replaced call to created function body '"
                 +:+ "f" +:+ "' to argument error"))).
Proof.
  apply (computeExpressionCall_matching Examples.positionalMatchCall
           Examples.argumentSideEffects
           (Examples.plain_function "f" (Examples.spec_of ["a"; "b"; "c"] 1) false)
           [Examples.int 0] None None
           (Examples.call_abc [1; 2; 3]%Z)
           (Some (ExpressionMakeTuple (map Examples.int [1; 2; 3]%Z)))
           (map Examples.int [1; 2; 3]%Z) []).
  - reflexivity.
  - intros args_dict name Hdict Hname.
    vm_compute in Hdict. injection Hdict as <-.
    vm_compute in Hname.
    repeat (apply elem_of_cons in Hname as [->|Hname]);
      [vm_compute; eauto ..|].
    by apply elem_of_nil in Hname.
Defined.

Example direct_call_abc :
  (computeExpressionCall Examples.positionalMatchCall
     Examples.argumentSideEffects Examples.creation_abc
     (Examples.call_abc [1; 2; 3]%Z)
     (Some (ExpressionMakeTuple (map Examples.int [1; 2; 3]%Z))) None []).1
  = Ok (ExpressionFunctionCall Examples.creation_abc
          [Examples.int 1; Examples.int 2; Examples.int 3],
        Some "new_statements",
        Some "Replaced call to created function body 'f' with direct function call.").
Proof. vm_compute. reflexivity. Qed.

(** [f(1, 2, 3, 4)]: the four arguments stay as side effects in front of
    the raise. *)
Example too_many_arguments_abc :
  (computeExpressionCall Examples.positionalMatchCall
     Examples.argumentSideEffects Examples.creation_abc
     (Examples.call_abc [1; 2; 3; 4]%Z)
     (Some (ExpressionMakeTuple (map Examples.int [1; 2; 3; 4]%Z))) None []).1
  = Ok (ExpressionSideEffects
          [Examples.int 1; Examples.int 2; Examples.int 3; Examples.int 4]
          (ExpressionRaiseException
             (TypeError "f() got a wrong number of arguments")),
        Some "new_raise",
        Some "Replaced call to created function body 'f' to argument error").
Proof. vm_compute. reflexivity. Qed.

(** The example matcher binds the names it is given and no others. *)
Lemma positionalMatchCall_binds_given_names func_name args star_list_arg
    star_dict_arg num_defaults positional pairs args_dict name :
  Examples.positionalMatchCall func_name args star_list_arg star_dict_arg
    num_defaults positional pairs = inl args_dict ->
  is_Some (args_dict !! name) ->
  name ∈ args ++ option_list star_list_arg ++ option_list star_dict_arg.
Proof.
  unfold Examples.positionalMatchCall.
  destruct (_ || _); [done|]. intros [= <-] Hsome.
  assert (forall values : list Expr,
            is_Some ((list_to_map (zip args values) : gmap string Expr)
                       !! name) -> name ∈ args) as Hzip.
  { intros values [value Hvalue].
    apply elem_of_list_to_map_2 in Hvalue. by eapply elem_of_zip_l. }
  destruct star_dict_arg as [star_dict|], star_list_arg as [star_list|];
    simpl in *;
    repeat match goal with
           | H : is_Some (<[_ := _]> _ !! _) |- _ =>
               apply lookup_insert_is_Some in H as [<-|[_ H]]
           end;
    try (apply Hzip in Hsome); set_solver.
Qed.

(** The example matcher on [(1, 2)] for the parameters [(a, b, c = ...)]:
    [c] is marked as taking its default. *)
Example positionalMatchCall_default :
  Examples.positionalMatchCall "f" ["a"; "b"; "c"] None None 1
    [Examples.int 1; Examples.int 2] []
  = inl (<["a" := Examples.int 1]>
           (<["b" := Examples.int 2]>
              (<["c" := Examples.default_value]> ∅)))
  /\ (exists e,
        Examples.positionalMatchCall "f" ["a"; "b"; "c"] None None 1
          [Examples.int 1] [] = inr e).
Proof. split; [vm_compute; reflexivity|]. vm_compute. eauto. Qed.

(** [f(1)] for [def f(a, *, k = 0)], a valid call: the matcher is asked for
    [a] only, and the lookup of [k] ends the computation. *)
Lemma computeExpressionCall_keyword_only_aborts_witness :
  (exists e,
     Examples.positionalMatchCall "f" ["a"] None None 0 [Examples.int 1] []
     = inr e /\
     (computeExpressionCall Examples.positionalMatchCall
        Examples.argumentSideEffects Examples.creation_a_kw_only
        Examples.call_a_kw_only
        (Some (ExpressionMakeTuple [Examples.int 1])) None []).1
     = Ok (wrapExpressionWithSideEffects
             (Examples.argumentSideEffects Examples.call_a_kw_only)
             Examples.call_a_kw_only
             (ExpressionRaiseException (getRealException e)),
           Some "new_raise",
           Some ("Replaced call to created function body '"
                 +:+ "f" +:+ "' to argument error")))
  \/
  (exists args_dict missing,
     Examples.positionalMatchCall "f" ["a"] None None 0 [Examples.int 1] []
     = inl args_dict /\
     missing ∈ getAllNames Examples.spec_a_kw_only /\
     args_dict !! missing = None /\
     (computeExpressionCall Examples.positionalMatchCall
        Examples.argumentSideEffects Examples.creation_a_kw_only
        Examples.call_a_kw_only
        (Some (ExpressionMakeTuple [Examples.int 1])) None []).1
     = Raise (KeyError missing)).
Proof.
  apply (computeExpressionCall_keyword_only_aborts
           Examples.positionalMatchCall Examples.argumentSideEffects
           (Examples.plain_function "f" Examples.spec_a_kw_only false)
           []
           (Some (ExpressionConstantRef
                    (ConstDict [(ConstStr "k", ConstInt 0)])))
           None Examples.call_a_kw_only
           (Some (ExpressionMakeTuple [Examples.int 1]))
           [Examples.int 1] [] "k").
  - reflexivity.
  - simpl. by left.
  - simpl. intros Hin. apply list_elem_of_singleton in Hin. discriminate.
  - intros args_dict name Hdict Hsome.
    exact (positionalMatchCall_binds_given_names _ _ _ _ _ _ _ _ _
             Hdict Hsome).
Defined.

(** The same call, evaluated: the result is the [KeyError] of [k]. *)
Example keyword_only_call_ends_in_KeyError :
  (computeExpressionCall Examples.positionalMatchCall
     Examples.argumentSideEffects Examples.creation_a_kw_only
     Examples.call_a_kw_only
     (Some (ExpressionMakeTuple [Examples.int 1])) None []).1
  = Raise (KeyError "k").
Proof. vm_compute. reflexivity. Qed.



(** ** Qualified names *)


(** ** The final return of function and coroutine bodies *)

Lemma last_statement_aborts (statements : list Statement) (last : Statement) :
  isStatementAborting (StatementsSequence (statements ++ [last]))
  = isStatementAborting last.
Proof.
  induction statements as [|first rest IH]; [done|].
  simpl in *. destruct (rest ++ [last]) eqn:Heq; [|exact IH].
  by destruct rest.
Qed.

Lemma sequenceNode_aborting frame statements :
  isStatementAborting (sequenceNode frame statements)
  = isStatementAborting (StatementsSequence statements).
Proof. by destruct frame. Qed.

(** An aborting sequence has a last statement, and it aborts. *)
Lemma aborting_sequence_ends_aborting (statements : list Statement) :
  isStatementAborting (StatementsSequence statements) = true ->
  exists before last,
    statements = before ++ [last] /\ isStatementAborting last = true.
Proof.
  induction statements as [|last before _] using rev_ind; [done|].
  rewrite last_statement_aborts. intros Hlast. by exists before, last.
Qed.

Lemma withFinalReturn_aborting raw :
  exists frame statements,
    withFinalReturn raw = sequenceNode frame statements /\
    isStatementAborting (StatementsSequence statements) = true.
Proof.
  destruct raw as [[frame statements]|]; unfold withFinalReturn.
  - destruct (isStatementAborting (sequenceNode frame statements)) eqn:Habort.
    + exists frame, statements. split; [done|].
      by rewrite <- (sequenceNode_aborting frame).
    + exists frame, (statements ++ [returnNone]). split; [done|].
      by rewrite last_statement_aborts.
  - by exists false, [returnNone].
Qed.

Lemma _insertFinalReturnStatement_sequence raw :
  _insertFinalReturnStatement (rawNode raw) = Ok (withFinalReturn raw).
Proof.
  destruct raw as [[frame statements]|]; [|done]. simpl.
  destruct (isStatementAborting (sequenceNode frame statements)); simpl;
    [done|].
  by destruct frame.
Qed.

(** C10: the statements that [buildFunctionNode] sets for a function that
    is no generator, and those that [buildAsyncFunctionNode] sets for the
    coroutine body, are the built statements with [return None] appended
    when they are absent or do not abort; the result is a statement
    sequence whose last statement aborts.  The statements of a generator
    are set as they were built. *)
Theorem final_return_statement (raw : option (bool * list Statement)) :
  buildFunctionNode_body "Function" (rawNode raw)
  = Ok (wrapFrame (withFinalReturn raw))
  /\ buildAsyncFunctionNode_body (rawNode raw)
     = Ok (wrapFrame (withFinalReturn raw))
  /\ (exists before last,
        wrapFrame (withFinalReturn raw) = StatementsSequence (before ++ [last])
        /\ isStatementAborting last = true)
  /\ (forall body,
        buildFunctionNode_body "Generator" (Some body) = Ok (wrapFrame body)).
Proof.
  repeat split.
  - unfold buildFunctionNode_body. simpl.
    rewrite _insertFinalReturnStatement_sequence.
    unfold mbind, Result_bind, wrapFrame.
    by destruct (isStatementsFrame _).
  - unfold buildAsyncFunctionNode_body.
    rewrite _insertFinalReturnStatement_sequence.
    unfold mbind, Result_bind, wrapFrame.
    by destruct (isStatementsFrame _).
  - destruct (withFinalReturn_aborting raw) as (frame & statements & -> & Habort).
    destruct frame; simpl.
    + exists [], (StatementsFrame statements). split; [done|].
      by rewrite <- Habort.
    + destruct (aborting_sequence_ends_aborting _ Habort)
        as (before & last & -> & Hlast).
      by exists before, last.
  - intros body. unfold buildFunctionNode_body. simpl.
    unfold wrapFrame. by destruct (isStatementsFrame body).
Qed.

(** ** The [providing] dictionary *)

Lemma dict_get_dict_set (providing : Providing) key variable :
  dict_get (dict_set providing key variable) key = Some variable.
Proof.
  induction providing as [|[k old] rest IH]; simpl.
  - by rewrite String.eqb_refl.
  - destruct (String.eqb k key) eqn:Hk; simpl; by rewrite Hk.
Qed.

Lemma dict_set_keys (providing : Providing) key variable :
  key ∈ map fst providing ->
  map fst (dict_set providing key variable) = map fst providing.
Proof.
  induction providing as [|[k old] rest IH]; simpl; intros Hin.
  - by apply elem_of_nil in Hin.
  - destruct (String.eqb_spec k key) as [->|Hne]; simpl; [done|].
    f_equal. apply IH. apply elem_of_cons in Hin as [Heq|Hin]; [|done].
    by destruct Hne.
Qed.

Lemma dict_set_new_key (providing : Providing) key variable :
  key ∉ map fst providing ->
  dict_set providing key variable = providing ++ [(key, variable)].
Proof.
  induction providing as [|[k old] rest IH]; simpl; intros Hnotin; [done|].
  destruct (String.eqb_spec k key) as [->|Hne].
  - destruct Hnotin. by left.
  - f_equal. apply IH. intros Hin. apply Hnotin. by right.
Qed.

Lemma dict_set_entries (providing : Providing) key variable entry :
  entry ∈ dict_set providing key variable ->
  entry = (key, variable) \/ entry ∈ providing.
Proof.
  induction providing as [|[k old] rest IH]; simpl; intros Hin.
  - apply list_elem_of_singleton in Hin. by left.
  - destruct (String.eqb_spec k key) as [->|Hne].
    + apply elem_of_cons in Hin as [->|Hin]; [by left|].
      right. by right.
    + apply elem_of_cons in Hin as [->|Hin]; [right; by left|].
      destruct (IH Hin) as [->|Hrest]; [by left|]. right. by right.
Qed.

(** Registering a variable keeps the dictionary well formed. *)
Lemma dict_set_ok (providing : Providing) variable :
  providing_ok providing ->
  providing_ok (dict_set providing (Var_getName variable) variable).
Proof.
  intros [Hkeys Hnames]. split.
  - destruct (decide (Var_getName variable ∈ map fst providing)) as [Hin|Hnotin].
    + by rewrite dict_set_keys.
    + rewrite dict_set_new_key by done. rewrite map_app. simpl.
      apply NoDup_app. repeat split; [done| |apply NoDup_singleton].
      intros key Hkey Hnew. apply list_elem_of_singleton in Hnew. by subst.
  - apply Forall_forall. intros entry Hin.
    destruct (dict_set_entries _ _ _ _ Hin) as [->|Hold]; [done|].
    by eapply Forall_forall in Hnames.
Qed.

Lemma providing_ok_values (providing : Providing) :
  providing_ok providing -> NoDup (dict_values providing).
Proof.
  intros [Hkeys Hnames]. unfold dict_values.
  apply (NoDup_fmap_1 Var_getName).
  replace (Var_getName <$> map snd providing) with (map fst providing);
    [done|].
  induction Hnames as [|[key variable] rest Hname _ IH]; [done|].
  simpl in *. rewrite Hname. f_equal. apply IH. by inversion Hkeys.
Qed.

Lemma set_add_elem (taken : list Var) (variable : Var) :
  variable ∈ set_add taken variable.
Proof.
  unfold set_add. case_bool_decide; [done|].
  apply elem_of_app. right. by left.
Qed.

(** ** Variable releases *)

Lemma collectReleases_filter function (variables : list Var) :
  collectReleases function
    (filter (fun variable => isLocalVariable variable = true) variables)
  = map StatementReleaseVariable
      (filter (fun variable =>
                 (isLocalVariable variable
                  && bool_decide (getOwner variable = scope_id function)
                  && negb (Scope_isGenerator function
                           && isParameterVariable variable)) = true)
              variables).
Proof.
  induction variables as [|variable rest IH]; [done|].
  rewrite !filter_cons.
  destruct (isLocalVariable variable) eqn:Hlocal; simpl.
  - destruct (bool_decide (getOwner variable = scope_id function)); simpl;
      [|exact IH].
    destruct (Scope_isGenerator function && isParameterVariable variable);
      simpl; [exact IH|].
    by rewrite IH.
  - exact IH.
Qed.

Lemma collectReleases_released function :
  collectReleases function (getLocalVariables function)
  = map StatementReleaseVariable (releasedVariables function).
Proof. apply collectReleases_filter. Qed.

(** C6, as the code has it: the released variables are the local
    variables that the body owns, parameter variables included, except
    that a generator keeps its parameter variables out; they are released
    in the order of [providing], each once.  With none to release the body
    stays as it is, otherwise its statements become a sequence holding the
    protected region around the previous statements. *)
Theorem function_variable_releases data provider :
  let function := ExpressionFunctionBody data provider in
  let released := releasedVariables function in
  (released = [] -> addFunctionVariableReleases function = Ok function)
  /\ (forall statements,
        released <> [] -> body data = Some statements ->
        addFunctionVariableReleases function
        = Ok (ExpressionFunctionBody
                (set_body data
                   (Some (StatementsSequence
                            [StatementTryFinally (wrapFrame statements)
                               (map StatementReleaseVariable released)])))
                provider))
  /\ (forall variable,
        variable ∈ released <->
        variable ∈ dict_values (providing data)
        /\ isLocalVariable variable = true
        /\ getOwner variable = sid data
        /\ (kind data = GeneratorFunctionBody ->
            isParameterVariable variable = false))
  /\ (providing_ok (providing data) -> NoDup released).
Proof.
  intros function released.
  assert (forall variable,
            variable ∈ released <->
            variable ∈ dict_values (providing data)
            /\ isLocalVariable variable = true
            /\ getOwner variable = sid data
            /\ (kind data = GeneratorFunctionBody ->
                isParameterVariable variable = false)) as Hmembers.
  { intros variable. unfold released, releasedVariables.
    rewrite list_elem_of_filter. unfold function. simpl.
    rewrite !andb_true_iff, bool_decide_eq_true, negb_true_iff.
    split.
    - intros [[[Hlocal Howner] Hkeeps] Hin]. repeat split; try done.
      intros Hkind. rewrite Hkind in Hkeeps. exact Hkeeps.
    - intros (Hin & Hlocal & Howner & Hgenerator). repeat split; try done.
      destruct (kind data); try done. by apply Hgenerator. }
  split; [|split; [|split]].
  - intros Hnone. unfold addFunctionVariableReleases, function.
    fold function. rewrite collectReleases_released. fold released.
    by rewrite Hnone.
  - intros statements Hsome Hbody.
    unfold addFunctionVariableReleases, function.
    fold function. rewrite collectReleases_released. fold released.
    destruct released as [|first rest]; [done|]. simpl.
    by rewrite Hbody.
  - exact Hmembers.
  - intros Hok. apply NoDup_filter. by apply providing_ok_values.
Qed.

(** C6 fails as stated on [def f(a): x = a]: the body owns the parameter
    variable [a] and the local variable [x]; the finalization releases
    both, while the variables that are local, owned and no parameter are
    only [x]. *)
Lemma parameter_variables_are_released :
  (body' ← (function ← addFunctionVariableReleases Examples.function_f_a_x;
            Ok (getBody function));
   Ok body')
  = Ok (Some (StatementsSequence
                [StatementTryFinally
                   (StatementsSequence
                      [StatementOther "x = a" false; returnNone])
                   [StatementReleaseVariable (ParameterVariable 1 "a");
                    StatementReleaseVariable (LocalVariable 1 "x")]]))
  /\ getUserLocalVariables Examples.function_f_a_x = [LocalVariable 1 "x"]
  /\ releasedVariables Examples.function_f_a_x
     <> getUserLocalVariables Examples.function_f_a_x.
Proof.
  repeat split; try (vm_compute; reflexivity).
  vm_compute. discriminate.
Qed.

(** ** Resolution of references *)

Section ScopeFacts.

Variable python_version : Z.

(** The closure search changes no function body of the chain; it can only
    add a module variable to the module. *)
Lemma getVariableForClosure_chainData scope variable_name :
  chainData (getVariableForClosure python_version scope variable_name).2
  = chainData scope.
Proof.
  induction scope as [module_id module_providing|data provider IH]; simpl.
  - by destruct (dict_get module_providing variable_name).
  - destruct (getVariableForClosure python_version provider variable_name)
      as [variable provider'] eqn:Hsearch.
    simpl in IH.
    destruct (kind data), (dict_get (providing data) variable_name),
      (String.eqb variable_name "__class__"), (python_version <? 300)%Z;
      simpl; by rewrite ?IH.
Qed.

(** A name that neither a function body of the chain nor the module
    provides is resolved to a new variable of the module. *)
Lemma getVariableForClosure_unbound scope variable_name :
  Forall (fun data => dict_get (providing data) variable_name = None)
         (chainData scope) ->
  dict_get (getProviding (getParentModule scope)) variable_name = None ->
  isModuleVariable
    (getVariableForClosure python_version scope variable_name).1 = true.
Proof.
  induction scope as [module_id module_providing|data provider IH];
    simpl; intros Hbodies Hmodule.
  - by rewrite Hmodule.
  - apply Forall_cons in Hbodies as [Hown Hbodies].
    rewrite Hown.
    destruct (getVariableForClosure python_version provider variable_name)
      as [variable provider'] eqn:Hsearch.
    simpl in IH.
    assert (isModuleVariable variable = true) as Hvariable by by apply IH.
    by destruct (kind data), (String.eqb variable_name "__class__"),
      (python_version <? 300)%Z.
Qed.


(** C8: in an unoptimized scope that does not provide the name, a closure
    search that ends at a module variable makes the reference a maybe-local
    variable, owned by the referencing scope, that wraps this module
    variable; the scope provides the maybe-local variable from then on. *)
Theorem unoptimized_reference_is_maybe_local data provider variable_name :
  let self := ExpressionFunctionBody data provider in
  let found := (getVariableForClosure python_version provider variable_name).1 in
  let result := (getVariableForReference python_version self variable_name).1 in
  let self' := (getVariableForReference python_version self variable_name).2 in
  unoptimized data = true ->
  dict_get (providing data) variable_name = None ->
  isModuleVariable found = true ->
  result = MaybeLocalVariable (sid data) found
  /\ isModuleVariable result = false
  /\ getOwner result = scope_id self
  /\ dict_get (getProviding self') (Var_getName found) = Some result.
Proof.
  intros self found result self' Hunoptimized Hnew Hfound.
  subst result self' self. unfold getVariableForReference.
  rewrite Hnew. unfold getClosureVariable.
  subst found.
  destruct (getVariableForClosure python_version provider variable_name)
    as [variable provider'] eqn:Hsearch.
  simpl in Hfound. rewrite Hfound. simpl.
  rewrite !Hfound. simpl. rewrite Hunoptimized. simpl.
  repeat split. apply dict_get_dict_set.
Qed.

End ScopeFacts.



(** A function at module level with [exec] in it refers to the unbound
    name [y]. *)
Lemma unoptimized_reference_is_maybe_local_witness :
  (getVariableForReference 270 Examples.scope_unoptimized "y").1
  = MaybeLocalVariable 1 (getVariableForClosure 270 Examples.module0 "y").1
  /\ isModuleVariable
       (getVariableForReference 270 Examples.scope_unoptimized "y").1 = false
  /\ getOwner (getVariableForReference 270 Examples.scope_unoptimized "y").1
     = scope_id Examples.scope_unoptimized
  /\ dict_get
       (getProviding
          (getVariableForReference 270 Examples.scope_unoptimized "y").2)
       (Var_getName (getVariableForClosure 270 Examples.module0 "y").1)
     = Some (getVariableForReference 270 Examples.scope_unoptimized "y").1.
Proof.
  apply (unoptimized_reference_is_maybe_local 270
           {| sid := 1; kind := FunctionBody; name := "f";
              is_lambda := false; is_genexpr := false; local_locals := true;
              unoptimized := true; parameters := Examples.no_parameters;
              providing := []; taken := []; body := None |}
           Examples.module0 "y").
  - reflexivity.
  - reflexivity.
  - reflexivity.
Defined.

Example unoptimized_reference_value :
  (getVariableForReference 270 Examples.scope_unoptimized "y").1
  = MaybeLocalVariable 1 (ModuleVariable 0 "y").
Proof. reflexivity. Qed.

(* ================================================================== *)
(** * Part III: further properties of the code                         *)
(* ================================================================== *)

(** ** Function creation *)

Section FunctionCreationMore.

Variable willRaiseException : Expr -> bool.
Variable child_mayRaiseException : Expr -> bool.

Lemma computeExpression_defaults_tag self side_effects defaults replacement :
  computeExpression_defaults willRaiseException self side_effects defaults
  = Some replacement ->
  replacement.1.2 = Some "new_raise"
  /\ Exists (fun default => willRaiseException default = true) defaults.
Proof.
  induction defaults as [|default rest IH]; simpl; [done|].
  destruct (willRaiseException default) eqn:Hd.
  - intros [= <-]. split; [done|]. by left.
  - intros Hrest. destruct (IH Hrest) as [Htag Hexists].
    split; [done|]. by right.
Qed.

Lemma computeExpression_defaults_some self side_effects defaults :
  Exists (fun default => willRaiseException default = true) defaults ->
  exists replacement,
    computeExpression_defaults willRaiseException self side_effects defaults
    = Some replacement.
Proof.
  induction 1 as [default rest Hd|default rest _ IH]; simpl.
  - rewrite Hd. eauto.
  - destruct (willRaiseException default); eauto.
Qed.

(** X1: [computeExpression] leaves a function creation alone exactly when
    none of its defaults, keyword defaults and annotations will raise;
    in every other case the change is tagged [new_raise]. *)
Theorem computeExpression_changes_iff_child_raises
    function_ref defaults kw_defaults annotations :
  let self := ExpressionFunctionCreation function_ref defaults kw_defaults
                annotations in
  let raises :=
    existsb willRaiseException defaults
    || match kw_defaults with
       | Some kw => willRaiseException kw
       | None => false
       end
    || match annotations with
       | Some ann => willRaiseException ann
       | None => false
       end in
  (raises = false <-> computeExpression willRaiseException self = unchanged self)
  /\ (raises = true <->
      (computeExpression willRaiseException self).1.2 = Some "new_raise").
Proof.
  intros self raises. subst self raises.
  unfold computeExpression.
  destruct (existsb willRaiseException defaults) eqn:Hdefaults.
  - apply existsb_exists in Hdefaults as (default & Hin & Hd).
    destruct (computeExpression_defaults_some
                (ExpressionFunctionCreation function_ref defaults kw_defaults
                   annotations) [] defaults) as [replacement Hr].
    { apply Exists_exists. exists default. split; [|done].
      by apply list_elem_of_In. }
    rewrite Hr.
    destruct (computeExpression_defaults_tag _ _ _ _ Hr) as [Htag _].
    simpl. split; split; try done.
    intros ->. by simpl in Htag.
  - rewrite computeExpression_defaults_none.
    2:{ apply Forall_forall. intros default Hin.
        destruct (willRaiseException default) eqn:Hd; [|done].
        assert (existsb willRaiseException defaults = true) as Habsurd.
        { apply existsb_exists. exists default.
          split; [by apply list_elem_of_In|done]. }
        by rewrite Habsurd in Hdefaults. }
    simpl.
    destruct kw_defaults as [kw|]; [destruct (willRaiseException kw)|];
      simpl; try (split; split; done);
      destruct annotations as [ann|]; [destruct (willRaiseException ann)| |
                                       destruct (willRaiseException ann)|];
      simpl; split; split; done.
Qed.

(** X2: when the analysis is consistent (what will raise may raise), a
    function creation that cannot raise according to its own
    [mayRaiseException] is never rewritten by [computeExpression]. *)
Theorem computeExpression_keeps_what_cannot_raise
    function_ref defaults kw_defaults annotations :
  let self := ExpressionFunctionCreation function_ref defaults kw_defaults
                annotations in
  (forall node, willRaiseException node = true ->
                child_mayRaiseException node = true) ->
  FunctionCreation_mayRaiseException child_mayRaiseException self = false ->
  computeExpression willRaiseException self = unchanged self.
Proof.
  intros self Hsound Hcannot. subst self.
  unfold FunctionCreation_mayRaiseException in Hcannot.
  destruct (existsb child_mayRaiseException defaults) eqn:Hdefaults; [done|].
  assert (forall node, child_mayRaiseException node = false ->
                       willRaiseException node = false) as Hnot.
  { intros node Hnode. destruct (willRaiseException node) eqn:Hw; [|done].
    by rewrite (Hsound node Hw) in Hnode. }
  apply computeExpression_unchanged.
  - apply Forall_forall. intros default Hin. apply Hnot.
    destruct (child_mayRaiseException default) eqn:Hd; [|done].
    assert (existsb child_mayRaiseException defaults = true) as Habsurd.
    { apply existsb_exists. exists default.
      split; [by apply list_elem_of_In|done]. }
    by rewrite Habsurd in Hdefaults.
  - intros kw ->. apply Hnot.
    by destruct (child_mayRaiseException kw).
  - intros ann ->. apply Hnot.
    destruct kw_defaults as [kw|]; [|done].
    by destruct (child_mayRaiseException kw).
Qed.

End FunctionCreationMore.

Lemma computeExpression_keeps_what_cannot_raise_witness :
  computeExpression Examples.raiseNodesRaise
    (ExpressionFunctionCreation
       (Examples.plain_function "f" (Examples.spec_of ["a"] 1) false)
       [Examples.int 1] None None)
  = unchanged
      (ExpressionFunctionCreation
         (Examples.plain_function "f" (Examples.spec_of ["a"] 1) false)
         [Examples.int 1] None None).
Proof.
  apply (computeExpression_keeps_what_cannot_raise
           Examples.raiseNodesRaise Examples.raiseNodesRaise).
  - intros node Hnode. exact Hnode.
  - reflexivity.
Defined.

(** X3: the checker of the [kw_defaults] child is idempotent, and what it
    lets through is never the constant [None] or the empty dictionary
    constant; so the [kw_defaults] child of a built function creation is
    never one of these two. *)
Theorem convertNoneConstantOrEmptyDictToNone_normalises (node : option Expr) :
  convertNoneConstantOrEmptyDictToNone
    (convertNoneConstantOrEmptyDictToNone node)
  = convertNoneConstantOrEmptyDictToNone node
  /\ convertNoneConstantOrEmptyDictToNone node
     <> Some (ExpressionConstantRef ConstNone)
  /\ convertNoneConstantOrEmptyDictToNone node
     <> Some (ExpressionConstantRef (ConstDict []))
  /\ (forall function_ref defaults annotations kw,
        makeExpressionFunctionCreation function_ref defaults node annotations
        = ExpressionFunctionCreation function_ref defaults (Some kw)
            annotations ->
        node = Some kw
        /\ kw <> ExpressionConstantRef ConstNone
        /\ kw <> ExpressionConstantRef (ConstDict [])).
Proof.
  assert (forall kw, convertNoneConstantOrEmptyDictToNone node = Some kw ->
            node = Some kw
            /\ kw <> ExpressionConstantRef ConstNone
            /\ kw <> ExpressionConstantRef (ConstDict [])) as Hkept.
  { intros kw.
    destruct node as [[[|z|s|items|[|item items]]| | | | | | | |]|]; simpl;
      try done; intros [= <-]; by repeat split. }
  split; [|split; [|split]].
  - destruct (convertNoneConstantOrEmptyDictToNone node) as [kw|] eqn:Hnode;
      [|done].
    destruct (Hkept kw eq_refl) as (-> & _ & _). by rewrite Hnode.
  - intros Hnone. by destruct (Hkept _ Hnone) as (_ & Hne & _).
  - intros Hempty. by destruct (Hkept _ Hempty) as (_ & _ & Hne).
  - intros function_ref defaults annotations kw Hbuilt.
    unfold makeExpressionFunctionCreation in Hbuilt.
    injection Hbuilt as Hkw. by apply Hkept.
Qed.

(** ** Calls of a created function *)

(** The values come in the order of the names, one for each. *)
Lemma lookupAll_values (args_dict : gmap string Expr) names values :
  lookupAll args_dict names = Ok values ->
  Forall2 (fun name value => args_dict !! name = Some value) names values.
Proof.
  revert values. induction names as [|name rest IH]; simpl; intros values.
  - intros [= <-]. constructor.
  - destruct (args_dict !! name) as [value|] eqn:Hname; [|done].
    destruct (lookupAll args_dict rest) as [rest_values|]; simpl; [|done].
    intros [= <-]. constructor; [done|]. by apply IH.
Qed.

Lemma lookupAll_first_missing (args_dict : gmap string Expr)
    before name after :
  Forall (fun bound => is_Some (args_dict !! bound)) before ->
  args_dict !! name = None ->
  lookupAll args_dict (before ++ name :: after) = Raise (KeyError name).
Proof.
  induction 1 as [|bound rest [value Hbound] _ IH]; simpl; intros Hname.
  - by rewrite Hname.
  - rewrite Hbound. by rewrite IH.
Qed.

Section CallSiteMore.

Variable matchCall :
  string -> list string -> option string -> option string -> nat ->
  list Expr -> list (string * Expr) ->
  gmap string Expr + TooManyArguments.
Variable extractPreCallSideEffects : Expr -> list Expr.

(** X4: when [matchCall] returns a dictionary that lacks one of the
    declared names, the call is not rewritten at all: the computation
    stops with the [KeyError] of the first such name in the order of
    [getAllNames], because only [TooManyArguments] is caught. *)
Theorem matchAndReplace_missing_binding
    self call_node function_ref args_tuple args_dict before name after :
  let call_spec := getParameters (getFunctionBody function_ref) in
  matchCall (getName self) (getArgumentNames call_spec)
    (getStarListArgumentName call_spec) (getStarDictArgumentName call_spec)
    (getDefaultCount call_spec) args_tuple [] = inl args_dict ->
  getAllNames call_spec = before ++ name :: after ->
  Forall (fun bound => is_Some (args_dict !! bound)) before ->
  args_dict !! name = None ->
  matchAndReplace matchCall extractPreCallSideEffects self call_node
    function_ref args_tuple = Raise (KeyError name).
Proof.
  intros call_spec Hmatch Hnames Hbefore Hname.
  unfold matchAndReplace. fold call_spec. rewrite Hmatch, Hnames.
  by rewrite (lookupAll_first_missing _ _ _ _ Hbefore Hname).
Qed.

(** X5: a direct call built by [computeExpressionCall] carries exactly one
    value for each declared name of the callee. *)
Theorem matchAndReplace_direct_call_arity
    self call_node function_ref args_tuple function values tags description :
  matchAndReplace matchCall extractPreCallSideEffects self call_node
    function_ref args_tuple
  = Ok (ExpressionFunctionCall function values, tags, description) ->
  function = self
  /\ length values
     = length (getAllNames (getParameters (getFunctionBody function_ref))).
Proof.
  unfold matchAndReplace.
  destruct (matchCall _ _ _ _ _ _ _) as [args_dict|e].
  - destruct (lookupAll _ _) as [found|] eqn:Hfound; simpl; [|done].
    intros [= <- <- _ _]. split; [done|].
    apply lookupAll_values in Hfound. symmetry.
    by eapply Forall2_length.
  - intros [= Hwrap _ _]. exfalso. revert Hwrap.
    unfold wrapExpressionWithSideEffects.
    by destruct (extractPreCallSideEffects call_node).
Qed.

End CallSiteMore.

(** [def f(a, *, k)] called as [f(1)]: the matcher binds [a] only. *)
Lemma matchAndReplace_missing_binding_witness :
  matchAndReplace Examples.positionalMatchCall Examples.argumentSideEffects
    Examples.creation_a_k
    (ExpressionCall Examples.creation_a_k
       (Some (ExpressionMakeTuple [Examples.int 1])) None)
    (Examples.plain_function "f"
       {| normal_args := ["a"]; kw_only_args := ["k"];
          list_star_arg := None; dict_star_arg := None;
          default_count := 1 |} false)
    [Examples.int 1]
  = Raise (KeyError "k").
Proof.
  apply (matchAndReplace_missing_binding Examples.positionalMatchCall
           Examples.argumentSideEffects Examples.creation_a_k _ _
           [Examples.int 1]
           (<["a" := Examples.int 1]> ∅) ["a"] "k" []).
  - vm_compute. reflexivity.
  - reflexivity.
  - constructor; [|constructor]. vm_compute. eauto.
  - vm_compute. reflexivity.
Defined.

Lemma matchAndReplace_direct_call_arity_witness :
  Examples.creation_abc = Examples.creation_abc
  /\ length [Examples.int 1; Examples.int 2; Examples.int 3]
     = length (getAllNames (Examples.spec_of ["a"; "b"; "c"] 1)).
Proof.
  apply (matchAndReplace_direct_call_arity Examples.positionalMatchCall
           Examples.argumentSideEffects Examples.creation_abc
           (Examples.call_abc [1; 2; 3]%Z)
           (Examples.plain_function "f" (Examples.spec_of ["a"; "b"; "c"] 1)
              false)
           (map Examples.int [1; 2; 3]%Z)
           Examples.creation_abc
           [Examples.int 1; Examples.int 2; Examples.int 3]
           (Some "new_statements")
           (Some "Replaced call to created function body 'f' with direct function call.")).
  vm_compute. reflexivity.
Defined.

(** ** Statements of a function body *)

Lemma last_statement_aborts_frame (statements : list Statement)
    (last : Statement) :
  isStatementAborting (StatementsFrame (statements ++ [last]))
  = isStatementAborting last.
Proof. exact (last_statement_aborts statements last). Qed.

(** X6: the result of [_insertFinalReturnStatement] aborts, so inserting
    the final return a second time changes nothing. *)
Theorem _insertFinalReturnStatement_idempotent
    (function_statements_body : option Statement) (result : Statement) :
  _insertFinalReturnStatement function_statements_body = Ok result ->
  isStatementAborting result = true
  /\ _insertFinalReturnStatement (Some result) = Ok result.
Proof.
  intros Hresult.
  assert (isStatementAborting result = true) as Haborts.
  { destruct function_statements_body as [body|]; simpl in Hresult.
    - destruct (isStatementAborting body) eqn:Hbody; simpl in Hresult.
      + by injection Hresult as <-.
      + destruct body; try done; injection Hresult as <-.
        * apply last_statement_aborts.
        * apply last_statement_aborts_frame.
    - by injection Hresult as <-. }
  split; [done|]. simpl. by rewrite Haborts.
Qed.

Lemma _insertFinalReturnStatement_idempotent_witness :
  isStatementAborting
    (StatementsSequence [StatementOther "x = 1" false; returnNone]) = true
  /\ _insertFinalReturnStatement
       (Some (StatementsSequence [StatementOther "x = 1" false; returnNone]))
     = Ok (StatementsSequence [StatementOther "x = 1" false; returnNone]).
Proof.
  apply (_insertFinalReturnStatement_idempotent
           (Some (StatementsSequence [StatementOther "x = 1" false]))).
  reflexivity.
Defined.

(** ** Variable releases *)

(** X7: every user local variable of a body is among the released
    variables, in the same order; for a generator body the released
    variables are exactly its user local variables. *)
Theorem user_locals_are_released data provider :
  let function := ExpressionFunctionBody data provider in
  getUserLocalVariables function
  = filter (fun variable => isParameterVariable variable = false)
           (releasedVariables function)
  /\ (kind data = GeneratorFunctionBody ->
      releasedVariables function = getUserLocalVariables function).
Proof.
  intros function. unfold getUserLocalVariables, releasedVariables.
  unfold function. simpl.
  generalize (dict_values (providing data)). intros variables.
  split.
  - induction variables as [|variable rest IH]; [done|].
    rewrite !filter_cons.
    destruct (isLocalVariable variable); simpl; [|exact IH].
    destruct (bool_decide (getOwner variable = sid data)); simpl;
      [|destruct (isParameterVariable variable); simpl; exact IH].
    destruct (isParameterVariable variable) eqn:Hparameter; simpl.
    + rewrite andb_true_r.
      destruct (match kind data with
                | GeneratorFunctionBody => true
                | _ => false
                end); simpl; [exact IH|].
      rewrite filter_cons. rewrite Hparameter. simpl. exact IH.
    + rewrite andb_false_r. simpl.
      rewrite filter_cons. rewrite Hparameter. simpl. by rewrite IH.
  - intros Hkind. rewrite Hkind.
    induction variables as [|variable rest IH]; [done|].
    rewrite !filter_cons.
    destruct (isLocalVariable variable); simpl; [|exact IH].
    destruct (bool_decide (getOwner variable = sid data)); simpl;
      [|destruct (isParameterVariable variable); simpl; exact IH].
    destruct (isParameterVariable variable); simpl; [exact IH|].
    f_equal. exact IH.
Qed.

(** X8: [addFunctionVariableReleases] changes nothing but the statements
    of the body, and it does not notice an earlier run: applied again, it
    puts a second protected region with the same releases around the
    first. *)
Theorem addFunctionVariableReleases_nests data provider function' :
  let function := ExpressionFunctionBody data provider in
  addFunctionVariableReleases function = Ok function' ->
  getProviding function' = providing data
  /\ getTaken function' = taken data
  /\ getParentVariableProvider function' = provider
  /\ releasedVariables function' = releasedVariables function
  /\ (releasedVariables function <> [] ->
      exists statements,
        getBody function'
        = Some (StatementsSequence
                  [StatementTryFinally statements
                     (map StatementReleaseVariable
                        (releasedVariables function))])
        /\ (function'' ← addFunctionVariableReleases function';
            Ok (getBody function''))
           = Ok (Some (StatementsSequence
                         [StatementTryFinally
                            (StatementsSequence
                               [StatementTryFinally statements
                                  (map StatementReleaseVariable
                                     (releasedVariables function))])
                            (map StatementReleaseVariable
                               (releasedVariables function))]))).
Proof.
  intros function Hfirst.
  unfold addFunctionVariableReleases in Hfirst. unfold function in Hfirst.
  fold function in Hfirst. rewrite collectReleases_released in Hfirst.
  destruct (releasedVariables function) as [|first rest] eqn:Hreleased.
  - injection Hfirst as <-. by repeat split.
  - simpl in Hfirst. destruct (body data) as [statements|] eqn:Hbody; [|done].
    injection Hfirst as <-.
    assert (releasedVariables
              (ExpressionFunctionBody
                 (set_body data
                    (Some (makeStatementsSequenceFromStatement
                             (makeTryFinallyStatement
                                (if isStatementsFrame statements
                                 then makeStatementsSequenceFromStatement
                                        statements
                                 else statements)
                                (StatementReleaseVariable first
                                 :: map StatementReleaseVariable rest)))))
                 provider)
            = first :: rest) as Hsame by exact Hreleased.
    split; [done|]. split; [done|]. split; [done|]. split; [done|].
    intros _. eexists. split; [reflexivity|].
    unfold addFunctionVariableReleases.
    rewrite collectReleases_released, Hsame. reflexivity.
Qed.

Lemma addFunctionVariableReleases_nests_witness :
  exists function',
    addFunctionVariableReleases Examples.function_f_a_x = Ok function'
    /\ getProviding function' = getProviding Examples.function_f_a_x
    /\ getTaken function' = []
    /\ releasedVariables function'
       = releasedVariables Examples.function_f_a_x.
Proof.
  eexists. split; [vm_compute; reflexivity|].
  destruct (addFunctionVariableReleases_nests
              {| sid := 1; kind := FunctionBody; name := "f";
                 is_lambda := false; is_genexpr := false;
                 local_locals := true; unoptimized := false;
                 parameters := Examples.spec_of ["a"] 0;
                 providing := [("a", ParameterVariable 1 "a");
                               ("x", LocalVariable 1 "x")];
                 taken := [];
                 body := Some (StatementsSequence
                                 [StatementOther "x = a" false; returnNone]) |}
              Examples.module0 _ eq_refl)
    as (Hproviding & Htaken & _ & Hreleased & _).
  split; [exact Hproviding|]. split; [exact Htaken|exact Hreleased].
Defined.

(** ** Generator bodies: return handling *)

Lemma fold_marks (marks : list nat) (level : nat) :
  fold_left markAsNeedsGeneratorReturnHandling marks level
  = Nat.max level (foldr Nat.max 0 marks).
Proof.
  revert level. induction marks as [|mark rest IH]; intros level; simpl.
  - by rewrite Nat.max_0_r.
  - rewrite IH. unfold markAsNeedsGeneratorReturnHandling. lia.
Qed.

Lemma marks_below_maximum (marks : list nat) :
  Forall (fun mark => mark <= foldr Nat.max 0 marks) marks.
Proof.
  induction marks as [|mark rest IH]; simpl; constructor; [lia|].
  eapply Forall_impl; [exact IH|]. simpl. intros; lia.
Qed.

Lemma maximum_is_two (marks : list nat) :
  Forall (fun mark => mark <= 2) marks ->
  foldr Nat.max 0 marks <= 2
  /\ (foldr Nat.max 0 marks = 2 <-> 2 ∈ marks).
Proof.
  induction 1 as [|mark rest Hmark _ [IHle IH]]; simpl.
  - split; [lia|]. split; [done|]. intros Hin. by apply elem_of_nil in Hin.
  - split; [lia|]. rewrite elem_of_cons. split.
    + intros Hmax. destruct (decide (mark = 2)) as [->|Hne]; [by left|].
      right. apply IH. lia.
    + intros [<-|Hin]; [lia|]. apply IH in Hin. lia.
Qed.

(** X9: the marks for the generator return handling accumulate as their
    maximum: the order of the marks does not matter, a mark never lowers
    the level, and with marks of at most 2 the return handling is needed
    exactly when one of them was 2; it always implies the return exit. *)
Theorem generator_return_marks (marks : list nat) (level : nat) :
  let final := fold_left markAsNeedsGeneratorReturnHandling marks level in
  level <= final
  /\ Forall (fun mark => mark <= final) marks
  /\ (forall permuted, Permutation marks permuted ->
        fold_left markAsNeedsGeneratorReturnHandling permuted level = final)
  /\ (level <= 2 -> Forall (fun mark => mark <= 2) marks ->
      (needsGeneratorReturnHandling final = true <-> level = 2 \/ 2 ∈ marks))
  /\ (needsGeneratorReturnHandling final = true ->
      needsGeneratorReturnExit final = true).
Proof.
  intros final. subst final. rewrite fold_marks.
  split; [lia|]. split; [|split; [|split]].
  - eapply Forall_impl; [apply marks_below_maximum|]. simpl. intros; lia.
  - intros permuted Hperm. rewrite fold_marks. f_equal.
    induction Hperm; simpl; lia.
  - intros Hlevel Hmarks. unfold needsGeneratorReturnHandling.
    rewrite Nat.eqb_eq.
    destruct (maximum_is_two marks Hmarks) as [Hle Htwo].
    rewrite <- Htwo. lia.
  - unfold needsGeneratorReturnHandling, needsGeneratorReturnExit.
    rewrite Nat.eqb_eq. by intros ->.
Qed.

(** ** Decorators and keyword-only defaults *)

Section DecoratorFacts.

Variable staticmethod_ref : Expr.

Lemma applyDecorators_app first second function_creation :
  applyDecorators (first ++ second) function_creation
  = applyDecorators second (applyDecorators first function_creation).
Proof. unfold applyDecorators. by rewrite fold_left_app. Qed.

(** X10: decorators are applied from the bottom of the list upwards, so
    the decorator written first is the outermost call, each one called
    with the one-element tuple of what the decorators below it gave.  The
    implicit [staticmethod] is added only to an undecorated [__new__]
    whose provider is a class body. *)
Theorem decorators_apply_bottom_up
    provider function_name decorator decorator_list function_creation :
  buildFunctionNode_decorated staticmethod_ref provider function_name
    (decorator :: decorator_list) function_creation
  = ExpressionCallNoKeywords decorator
      (ExpressionMakeTuple
         [applyDecorators (rev decorator_list) function_creation])
  /\ buildFunctionNode_decorated staticmethod_ref provider function_name []
       function_creation
     = (if String.eqb function_name "__new__"
           && Scope_isExpressionClassBody provider
        then ExpressionCallNoKeywords staticmethod_ref
               (ExpressionMakeTuple [function_creation])
        else function_creation)
  /\ (decorator_list <> [] ->
      buildFunctionNode_decorated staticmethod_ref provider function_name
        decorator_list function_creation
      = applyDecorators (rev decorator_list) function_creation).
Proof.
  assert (forall decorators : list Expr,
            decorators <> [] ->
            buildFunctionNode_decorated staticmethod_ref provider
              function_name decorators function_creation
            = applyDecorators (rev decorators) function_creation) as Hsome.
  { intros decorators Hne. unfold buildFunctionNode_decorated.
    rewrite bool_decide_eq_false_2; [by rewrite andb_false_r|].
    intros Hrev. apply Hne. by rewrite <- (rev_involutive decorators), Hrev. }
  split; [|split; [|apply Hsome]].
  - rewrite Hsome by done. simpl. by rewrite applyDecorators_app.
  - unfold buildFunctionNode_decorated. simpl.
    rewrite andb_true_r.
    by destruct (String.eqb function_name "__new__"
                 && Scope_isExpressionClassBody provider).
Qed.

End DecoratorFacts.

Lemma omap_length_le {A B : Type} (f : A -> option B) (l : list A) :
  length (omap f l) <= length l.
Proof.
  induction l as [|x rest IH]; [done|].
  change (omap f (x :: rest))
    with (match f x with Some y => y :: omap f rest | None => omap f rest end).
  destruct (f x); simpl; lia.
Qed.

Lemma buildParameterKwDefaults_loop_spec keys values pairs :
  buildParameterKwDefaults_loop keys values pairs
  = (keys ++ omap (fun pair =>
                     match pair.2 with
                     | Some _ => Some (ExpressionConstantRef (ConstStr pair.1))
                     | None => None
                     end) pairs,
     values ++ omap snd pairs).
Proof.
  revert keys values. induction pairs as [|[kw_only_name [built|]] rest IH];
    intros keys values; simpl.
  - by rewrite !app_nil_r.
  - rewrite IH. by rewrite <- !app_assoc.
  - by rewrite IH.
Qed.

Section KwDefaultsFacts.

Variable python_version : Z.
Variable makeDictCreationOrConstant : list Expr -> list Expr -> Expr.

(** X11: [buildParameterKwDefaults] gives nothing before Python 3 and for
    a function without keyword-only parameters, and otherwise the
    dictionary node of the collected keys and values.  These stay
    aligned: there is one key and one value for each keyword-only
    parameter that has a default, in the order of the parameters, the key
    being the constant of the parameter's name and the value its default;
    parameters without default contribute nothing. *)
Theorem buildParameterKwDefaults_pairs
    (kw_only_names : list string) (kw_defaults : list (option Expr)) :
  let result :=
    buildParameterKwDefaults_loop [] [] (zip kw_only_names kw_defaults) in
  buildParameterKwDefaults python_version makeDictCreationOrConstant
    kw_only_names kw_defaults
  = (if (300 <=? python_version)%Z && negb (bool_decide (kw_only_names = []))
     then Some (makeDictCreationOrConstant result.1 result.2)
     else None)
  /\ length result.1 = length result.2
  /\ length result.1 <= length kw_only_names
  /\ (forall i key value,
        result.1 !! i = Some key -> result.2 !! i = Some value ->
        exists j kw_only_name,
          kw_only_names !! j = Some kw_only_name
          /\ kw_defaults !! j = Some (Some value)
          /\ key = ExpressionConstantRef (ConstStr kw_only_name))
  /\ (forall j kw_only_name value,
        kw_only_names !! j = Some kw_only_name ->
        kw_defaults !! j = Some (Some value) ->
        exists i,
          result.1 !! i = Some (ExpressionConstantRef (ConstStr kw_only_name))
          /\ result.2 !! i = Some value).
Proof.
  intros result. split.
  { unfold buildParameterKwDefaults. fold result.
    destruct (300 <=? python_version)%Z; [|done].
    destruct kw_only_names as [|first rest]; [done|].
    by destruct result. }
  revert result.

  intros result. subst result. rewrite buildParameterKwDefaults_loop_spec.
  simpl.
  assert (forall pairs : list (string * option Expr),
            omap (fun pair =>
                    match pair.2 with
                    | Some _ => Some (ExpressionConstantRef (ConstStr pair.1))
                    | None => None
                    end) pairs
            = map (fun entry => ExpressionConstantRef (ConstStr entry.1))
                  (omap (fun pair => match pair.2 with
                                     | Some built => Some (pair.1, built)
                                     | None => None
                                     end) pairs)
            /\ omap snd pairs
               = map snd
                   (omap (fun pair => match pair.2 with
                                      | Some built => Some (pair.1, built)
                                      | None => None
                                      end) pairs)) as Hentries.
  { induction pairs as [|[kw_only_name [built|]] rest [IHk IHv]]; simpl;
      [done| |done]. split; f_equal; [exact IHk|exact IHv]. }
  destruct (Hentries (zip kw_only_names kw_defaults)) as [-> ->].
  set (entries := omap _ (zip kw_only_names kw_defaults)).
  assert (forall i kw_only_name value,
            entries !! i = Some (kw_only_name, value) ->
            exists j, kw_only_names !! j = Some kw_only_name
                      /\ kw_defaults !! j = Some (Some value)) as Hfrom.
  { intros i kw_only_name value Hi.
    apply list_elem_of_lookup_2 in Hi. unfold entries in Hi.
    apply list_elem_of_omap in Hi as ([n [d|]] & Hin & Heq); [|done].
    simpl in Heq. injection Heq as -> ->.
    apply list_elem_of_lookup_1 in Hin as [j Hj].
    apply lookup_zip_with_Some in Hj as (x & y & [= -> ->] & Hx & Hy).
    by exists j. }
  assert (forall j kw_only_name value,
            kw_only_names !! j = Some kw_only_name ->
            kw_defaults !! j = Some (Some value) ->
            exists i, entries !! i = Some (kw_only_name, value)) as Hto.
  { intros j kw_only_name value Hname Hdefault.
    apply list_elem_of_lookup_1. unfold entries.
    apply list_elem_of_omap. exists (kw_only_name, Some value).
    split; [|done]. apply list_elem_of_lookup_2 with j.
    apply lookup_zip_with_Some. by exists kw_only_name, (Some value). }
  split; [by rewrite !length_map|]. split; [|split].
  - rewrite length_map. unfold entries.
    etransitivity; [apply omap_length_le|].
    rewrite length_zip_with. lia.
  - intros i key value Hkey Hvalue.
    rewrite list_lookup_fmap in Hkey.
    rewrite list_lookup_fmap in Hvalue.
    destruct (entries !! i) as [[n v]|] eqn:Hentry; [|done].
    simpl in Hkey, Hvalue. injection Hkey as <-. injection Hvalue as <-.
    destruct (Hfrom _ _ _ Hentry) as (j & Hname & Hdefault).
    by exists j, n.
  - intros j kw_only_name value Hname Hdefault.
    destruct (Hto _ _ _ Hname Hdefault) as [i Hentry].
    exists i. rewrite !list_lookup_fmap, Hentry. done.
Qed.

End KwDefaultsFacts.

(** ** Scopes: invariants and round trips *)

Lemma dict_get_name (providing : Providing) variable_name variable :
  providing_ok providing ->
  dict_get providing variable_name = Some variable ->
  Var_getName variable = variable_name.
Proof.
  intros [_ Hnames]. induction Hnames as [|[key value] rest Hname _ IH];
    simpl; [done|].
  destruct (String.eqb_spec key variable_name) as [<-|Hne]; [|exact IH].
  by intros [= <-].
Qed.

Lemma dict_get_None_keys (providing : Providing) variable_name :
  dict_get providing variable_name = None <->
  variable_name ∉ map fst providing.
Proof.
  induction providing as [|[key value] rest IH]; simpl.
  - split; [|done]. intros _ Hin. by apply elem_of_nil in Hin.
  - rewrite not_elem_of_cons.
    destruct (String.eqb_spec key variable_name) as [<-|Hne].
    + split; [done|]. by intros [? _].
    + rewrite IH. split; [by split|by intros [_ ?]].
Qed.

Lemma dict_get_dict_set_ne (providing : Providing) key other variable :
  key <> other ->
  dict_get (dict_set providing key variable) other = dict_get providing other.
Proof.
  intros Hne. induction providing as [|[k old] rest IH]; simpl.
  - destruct (String.eqb_spec key other); [done|done].
  - destruct (String.eqb_spec k key) as [->|Hk]; simpl.
    + destruct (String.eqb_spec key other); [done|done].
    + by rewrite IH.
Qed.

Lemma dict_del_dict_set (providing : Providing) key variable :
  dict_get providing key = None ->
  dict_del (dict_set providing key variable) key = providing.
Proof.
  induction providing as [|[k old] rest IH]; simpl.
  - by rewrite String.eqb_refl.
  - destruct (String.eqb k key) eqn:Hk; [done|]. simpl. rewrite Hk.
    intros Hrest. by rewrite IH.
Qed.

Lemma dict_get_dict_del (providing : Providing) key :
  NoDup (map fst providing) ->
  dict_get (dict_del providing key) key = None.
Proof.
  induction providing as [|[k old] rest IH]; simpl; [done|].
  intros Hnodup. apply NoDup_cons in Hnodup as [Hk Hrest].
  destruct (String.eqb_spec k key) as [->|Hne].
  - by apply dict_get_None_keys.
  - simpl. destruct (String.eqb_spec k key); [done|]. by apply IH.
Qed.

Lemma dict_get_dict_del_ne (providing : Providing) key other :
  key <> other ->
  dict_get (dict_del providing key) other = dict_get providing other.
Proof.
  intros Hne. induction providing as [|[k old] rest IH]; simpl; [done|].
  destruct (String.eqb_spec k key) as [->|Hk]; simpl.
  - by destruct (String.eqb_spec key other).
  - by rewrite IH.
Qed.

Lemma set_remove_set_add (taken : list Var) (variable : Var) :
  variable ∉ taken ->
  set_remove (set_add taken variable) variable = taken.
Proof.
  intros Hnotin. unfold set_add, set_remove.
  rewrite bool_decide_eq_false_2 by done.
  rewrite filter_app. rewrite filter_cons, filter_nil.
  destruct (decide (variable <> variable)) as [Hne|_]; [done|].
  rewrite app_nil_r.
  induction taken as [|first rest IH]; [done|].
  rewrite filter_cons.
  apply not_elem_of_cons in Hnotin as [Hfirst Hrest].
  destruct (decide (first <> variable)) as [_|Heq].
  - f_equal. by apply IH.
  - destruct Heq. by intros ->.
Qed.

Lemma set_remove_gone (taken : list Var) (variable : Var) :
  variable ∉ set_remove taken variable.
Proof.
  unfold set_remove. rewrite list_elem_of_filter. by intros [Hne _].
Qed.

Section ScopeInvariants.

Variable python_version : Z.

Lemma getVariableForClosure_name scope variable_name :
  scope_ok scope ->
  Var_getName (getVariableForClosure python_version scope variable_name).1
  = variable_name.
Proof.
  induction scope as [module_id module_providing|data provider IH];
    simpl; intros Hok.
  - destruct (dict_get module_providing variable_name) as [variable|] eqn:Hget;
      [|done].
    by eapply dict_get_name.
  - destruct Hok as [Hown Hprovider]. specialize (IH Hprovider).
    destruct (getVariableForClosure python_version provider variable_name)
      as [found provider'].
    simpl in IH.
    destruct (dict_get (providing data) variable_name) as [variable|] eqn:Hget.
    + pose proof (dict_get_name _ _ _ Hown Hget).
      by destruct (kind data), (String.eqb variable_name "__class__"),
        (python_version <? 300)%Z.
    + by destruct (kind data), (String.eqb variable_name "__class__"),
        (python_version <? 300)%Z.
Qed.

Lemma getVariableForClosure_ok scope variable_name :
  scope_ok scope ->
  scope_ok (getVariableForClosure python_version scope variable_name).2.
Proof.
  induction scope as [module_id module_providing|data provider IH];
    simpl; intros Hok.
  - destruct (dict_get module_providing variable_name); [done|]. simpl.
    exact (dict_set_ok module_providing
             (ModuleVariable module_id variable_name) Hok).
  - destruct Hok as [Hown Hprovider]. specialize (IH Hprovider).
    destruct (getVariableForClosure python_version provider variable_name)
      as [found provider'].
    simpl in IH.
    by destruct (kind data), (dict_get (providing data) variable_name),
      (String.eqb variable_name "__class__"), (python_version <? 300)%Z.
Qed.

(** A second closure search for the same name finds the same variable and
    changes nothing. *)
Lemma getVariableForClosure_again scope variable_name :
  getVariableForClosure python_version
    (getVariableForClosure python_version scope variable_name).2 variable_name
  = getVariableForClosure python_version scope variable_name.
Proof.
  induction scope as [module_id module_providing|data provider IH]; simpl.
  - destruct (dict_get module_providing variable_name) as [variable|] eqn:Hget;
      simpl; [by rewrite Hget|].
    by rewrite dict_get_dict_set.
  - destruct (getVariableForClosure python_version provider variable_name)
      as [found provider'] eqn:Hsearch.
    simpl in IH.
    destruct (kind data) eqn:Hkind,
      (dict_get (providing data) variable_name) eqn:Hget,
      (String.eqb variable_name "__class__") eqn:Hclass,
      (python_version <? 300)%Z eqn:Hversion;
      simpl; rewrite ?Hkind, ?Hget, ?Hclass, ?Hversion, ?IH; done.
Qed.

(** X12: reference resolution keeps the scopes well formed (in every
    [providing] dictionary of the chain the keys are distinct and each is
    the name of its variable), and the variable it returns has the name
    that was asked for. *)
Theorem getVariableForReference_keeps_scopes_ok scope variable_name :
  scope_ok scope ->
  scope_ok (getVariableForReference python_version scope variable_name).2
  /\ Var_getName
       (getVariableForReference python_version scope variable_name).1
     = variable_name.
Proof.
  destruct scope as [module_id module_providing|data provider].
  - intros Hok. split.
    + by apply (getVariableForClosure_ok
                  (CompiledPythonModule module_id module_providing)).
    + by apply (getVariableForClosure_name
                  (CompiledPythonModule module_id module_providing)).
  - intros [Hown Hprovider]. unfold getVariableForReference.
    destruct (dict_get (providing data) variable_name) as [variable|] eqn:Hget.
    { split; [done|]. by eapply dict_get_name. }
    unfold getClosureVariable.
    pose proof (getVariableForClosure_ok provider variable_name Hprovider)
      as Hok'.
    pose proof (getVariableForClosure_name provider variable_name Hprovider)
      as Hname.
    destruct (getVariableForClosure python_version provider variable_name)
      as [found provider'].
    simpl in Hok', Hname.
    destruct (isModuleVariable found) eqn:Hmodule; simpl;
      rewrite ?Hmodule; simpl.
    + destruct (unoptimized data); simpl; [|done].
      split; [|done]. split; [|done].
      exact (dict_set_ok (providing data)
               (MaybeLocalVariable (sid data) found) Hown).
    + rewrite andb_false_r. simpl. split; [|done]. split; [|done].
      by apply dict_set_ok.
Qed.

(** X13: resolving the same reference a second time returns the same
    variable and changes no scope. *)
Theorem getVariableForReference_again scope variable_name :
  scope_ok scope ->
  getVariableForReference python_version
    (getVariableForReference python_version scope variable_name).2
    variable_name
  = getVariableForReference python_version scope variable_name.
Proof.
  destruct scope as [module_id module_providing|data provider].
  - intros _. simpl.
    destruct (dict_get module_providing variable_name) as [variable|] eqn:Hget;
      simpl; [by rewrite Hget|].
    by rewrite dict_get_dict_set.
  - intros [Hown Hprovider]. unfold getVariableForReference at 2 3.
    destruct (dict_get (providing data) variable_name) as [variable|] eqn:Hget.
    { simpl. by rewrite Hget. }
    unfold getClosureVariable.
    pose proof (getVariableForClosure_name provider variable_name Hprovider)
      as Hname.
    pose proof (getVariableForClosure_again provider variable_name) as Hagain.
    destruct (getVariableForClosure python_version provider variable_name)
      as [found provider'].
    simpl in Hname, Hagain.
    destruct (isModuleVariable found) eqn:Hmodule,
      (unoptimized data) eqn:Hunoptimized;
      do 8 (simpl; rewrite ?Hmodule, ?Hunoptimized, ?Hname,
              ?dict_get_dict_set, ?Hget, ?Hagain);
      done.
Qed.

End ScopeInvariants.

Lemma getVariableForReference_keeps_scopes_ok_witness :
  scope_ok (getVariableForReference 350 Examples.scope_inner "x").2
  /\ Var_getName (getVariableForReference 350 Examples.scope_inner "x").1
     = "x".
Proof.
  apply (getVariableForReference_keeps_scopes_ok 350 Examples.scope_inner "x").
  vm_compute. repeat split; repeat constructor; set_solver.
Defined.

Lemma getVariableForReference_again_witness :
  getVariableForReference 350
    (getVariableForReference 350 Examples.scope_inner "x").2 "x"
  = getVariableForReference 350 Examples.scope_inner "x".
Proof.
  apply (getVariableForReference_again 350 Examples.scope_inner "x").
  vm_compute. repeat split; repeat constructor; set_solver.
Defined.

(** ** Scopes: removing and demoting variables *)

Lemma dict_set_values_new (providing : Providing) key variable :
  variable ∈ dict_values (dict_set providing key variable).
Proof.
  unfold dict_values.
  induction providing as [|[k old] rest IH]; simpl.
  - by apply list_elem_of_singleton.
  - destruct (String.eqb k key); simpl; [by left|by right].
Qed.

Lemma dict_values_get (providing : Providing) variable :
  providing_ok providing ->
  variable ∈ dict_values providing ->
  dict_get providing (Var_getName variable) = Some variable.
Proof.
  intros [Hnodup Hnames]. unfold dict_values.
  induction providing as [|[k v] rest IH]; simpl.
  - intros Hin. by apply elem_of_nil in Hin.
  - simpl in Hnodup. apply NoDup_cons in Hnodup as [Hk Hrest].
    apply Forall_cons in Hnames as [Hname Hnames]. simpl in Hname.
    intros Hin. apply elem_of_cons in Hin as [->|Hin].
    + by rewrite Hname, String.eqb_refl.
    + specialize (IH Hrest Hnames Hin).
      destruct (String.eqb_spec k (Var_getName variable)) as [Heq|Hne];
        [|done].
      destruct Hk. rewrite Heq.
      destruct (decide (Var_getName variable ∈ map fst rest)) as [|Hnotin];
        [done|].
      apply dict_get_None_keys in Hnotin. by rewrite Hnotin in IH.
Qed.

Lemma dict_del_keys (providing : Providing) key other :
  other ∈ map fst (dict_del providing key) -> other ∈ map fst providing.
Proof.
  induction providing as [|[k v] rest IH]; simpl; [done|].
  destruct (String.eqb k key); simpl.
  - intros Hin. by right.
  - intros Hin. apply elem_of_cons in Hin as [->|Hin]; [by left|].
    right. by apply IH.
Qed.

Lemma dict_del_ok (providing : Providing) key :
  providing_ok providing -> providing_ok (dict_del providing key).
Proof.
  intros [Hnodup Hnames].
  induction providing as [|[k v] rest IH]; simpl; [done|].
  simpl in Hnodup. apply NoDup_cons in Hnodup as [Hk Hrest].
  apply Forall_cons in Hnames as [Hname Hnames].
  destruct (String.eqb k key); [done|].
  destruct (IH Hrest Hnames) as [Hnodup' Hnames'].
  split; simpl.
  - apply NoDup_cons. split; [|done].
    intros Hin. apply Hk. by eapply dict_del_keys.
  - by apply Forall_cons.
Qed.

(** X14: in a well-formed body, [removeUserVariable] of a provided
    variable that is not a parameter of the body succeeds: the name is
    no longer provided, every other name is provided as before, and the
    taken variables and the provider are untouched. *)
Theorem removeUserVariable_removes data provider variable :
  providing_ok (providing data) ->
  variable ∈ dict_values (providing data) ->
  isParameterVariable variable && bool_decide (getOwner variable = sid data)
  = false ->
  exists self',
    removeUserVariable (ExpressionFunctionBody data provider) variable
    = Ok self'
    /\ dict_get (getProviding self') (Var_getName variable) = None
    /\ (forall other, Var_getName variable <> other ->
          dict_get (getProviding self') other
          = dict_get (providing data) other)
    /\ providing_ok (getProviding self')
    /\ getTaken self' = taken data
    /\ getParentVariableProvider self' = provider.
Proof.
  intros Hok Hin Hparameter.
  unfold removeUserVariable.
  rewrite bool_decide_eq_true_2 by done. simpl.
  rewrite (dict_values_get _ _ Hok Hin).
  simpl. rewrite Hparameter.
  eexists. split; [done|]. simpl.
  split; [apply dict_get_dict_del, Hok|].
  split; [intros other Hne; by apply dict_get_dict_del_ne|].
  split; [by apply dict_del_ok|done].
Qed.

Lemma removeUserVariable_removes_witness :
  exists self',
    removeUserVariable ClassExamples.scope_inner_x (LocalVariable 1 "x")
    = Ok self'
    /\ dict_get (getProviding self') "x" = None
    /\ (forall other, "x" <> other ->
          dict_get (getProviding self') other
          = dict_get [("x", LocalVariable 1 "x")] other)
    /\ providing_ok (getProviding self')
    /\ getTaken self' = [LocalVariable 1 "x"]
    /\ getParentVariableProvider self' = Examples.scope_mid.
Proof.
  apply (removeUserVariable_removes
           {| sid := 3; kind := FunctionBody; name := "inner";
              is_lambda := false; is_genexpr := false; local_locals := true;
              unoptimized := false; parameters := Examples.no_parameters;
              providing := [("x", LocalVariable 1 "x")];
              taken := [LocalVariable 1 "x"]; body := None |}
           Examples.scope_mid (LocalVariable 1 "x")).
  - split; simpl.
    + apply NoDup_singleton.
    + by repeat constructor.
  - simpl. by left.
  - reflexivity.
Defined.

(** X15: [removeUserVariable] refuses, with an assertion error, a
    variable that the body does not provide and a parameter variable of
    the body itself; in a well-formed body it never ends in a
    [KeyError]. *)
Theorem removeUserVariable_rejects data provider variable :
  providing_ok (providing data) ->
  variable ∉ dict_values (providing data)
  \/ (isParameterVariable variable = true /\ getOwner variable = sid data) ->
  removeUserVariable (ExpressionFunctionBody data provider) variable
  = Raise AssertionError.
Proof.
  intros Hok Hcases. unfold removeUserVariable.
  case_bool_decide as Hin; simpl; [|done].
  destruct Hcases as [Hnotin|[Hparameter Howner]]; [done|].
  rewrite (dict_values_get _ _ Hok Hin). simpl.
  rewrite Hparameter. by rewrite bool_decide_eq_true_2.
Qed.

Lemma removeUserVariable_rejects_witness :
  removeUserVariable ClassExamples.scope_method (ParameterVariable 3 "self")
  = Raise AssertionError.
Proof.
  apply (removeUserVariable_rejects
           {| sid := 3; kind := FunctionBody; name := "method";
              is_lambda := false; is_genexpr := false; local_locals := true;
              unoptimized := false;
              parameters := Examples.spec_of ["self"] 0;
              providing := [("self", ParameterVariable 3 "self")];
              taken := []; body := None |}
           ClassExamples.scope_class (ParameterVariable 3 "self")).
  - split; simpl.
    + apply NoDup_singleton.
    + by repeat constructor.
  - right. by split.
Defined.

Section RemoveAndDemote.

Variable python_version : Z.

(** X16: [removeClosureVariable] undoes what [getVariableForReference]
    has recorded: after a reference to a name that the body did not
    provide has been resolved to a variable of an outer function, removing
    that variable gives back the body as it was (and the provider chain
    as the closure search has left it). *)
Theorem removeClosureVariable_undoes_reference data provider variable_name :
  scope_ok provider ->
  dict_get (providing data) variable_name = None ->
  isModuleVariable
    (getVariableForClosure python_version provider variable_name).1 = false ->
  (getVariableForClosure python_version provider variable_name).1
    ∉ taken data ->
  isParameterVariable
    (getVariableForClosure python_version provider variable_name).1
  && bool_decide
       (getOwner (getVariableForClosure python_version provider
                    variable_name).1 = sid data) = false ->
  removeClosureVariable
    (getVariableForReference python_version
       (ExpressionFunctionBody data provider) variable_name).2
    (getVariableForClosure python_version provider variable_name).1
  = Ok (ExpressionFunctionBody data
          (getVariableForClosure python_version provider variable_name).2).
Proof.
  intros Hprovider Hget.
  pose proof (getVariableForClosure_name python_version provider variable_name
                Hprovider) as Hname.
  unfold getVariableForReference. rewrite Hget. unfold getClosureVariable.
  destruct (getVariableForClosure python_version provider variable_name)
    as [found provider'].
  simpl in Hname. simpl. intros Hmodule Htaken Hparameter.
  do 4 (simpl; rewrite ?Hmodule, ?andb_false_r).
  unfold removeClosureVariable, removeUserVariable. simpl.
  rewrite bool_decide_eq_true_2 by apply dict_set_values_new. simpl.
  rewrite dict_get_dict_set. simpl. rewrite Hparameter.
  unfold mbind, Result_bind. simpl.
  rewrite bool_decide_eq_true_2 by apply set_add_elem.
  rewrite Hname. rewrite dict_del_dict_set by done.
  rewrite set_remove_set_add by done.
  by destruct data.
Qed.

End RemoveAndDemote.

Lemma removeClosureVariable_undoes_reference_witness :
  removeClosureVariable
    (getVariableForReference 350 Examples.scope_inner "x").2
    (getVariableForClosure 350 Examples.scope_mid "x").1
  = Ok (ExpressionFunctionBody
          {| sid := 3; kind := FunctionBody; name := "inner";
             is_lambda := false; is_genexpr := false; local_locals := true;
             unoptimized := false; parameters := Examples.no_parameters;
             providing := []; taken := []; body := None |}
          (getVariableForClosure 350 Examples.scope_mid "x").2).
Proof.
  apply (removeClosureVariable_undoes_reference 350
           {| sid := 3; kind := FunctionBody; name := "inner";
              is_lambda := false; is_genexpr := false; local_locals := true;
              unoptimized := false; parameters := Examples.no_parameters;
              providing := []; taken := []; body := None |}
           Examples.scope_mid "x").
  - vm_compute. repeat split; repeat constructor; set_solver.
  - reflexivity.
  - reflexivity.
  - vm_compute. apply not_elem_of_nil.
  - reflexivity.
Defined.

(** X17: when [demoteClosureVariable] succeeds, the body provides, under
    the name of the closure variable, a new local variable of its own,
    which is one of its user local variables; the old variable is no
    longer taken and the provider is untouched. *)
Theorem demoteClosureVariable_makes_user_local data provider variable self' :
  demoteClosureVariable (ExpressionFunctionBody data provider) variable
  = Ok self' ->
  (LocalVariable (sid data) (Var_getName variable)
     ∈ getUserLocalVariables self')
  /\ dict_get (getProviding self') (Var_getName variable)
     = Some (LocalVariable (sid data) (Var_getName variable))
  /\ (variable ∉ getTaken self')
  /\ getParentVariableProvider self' = provider.
Proof.
  unfold demoteClosureVariable.
  destruct (isLocalVariable variable); simpl; [|done].
  case_bool_decide as Htaken; simpl; [|done].
  case_bool_decide as Howner; simpl; [done|].
  intros [= <-]. simpl.
  split; [|split; [apply dict_get_dict_set|split; [apply set_remove_gone|done]]].
  unfold getUserLocalVariables. apply list_elem_of_filter. simpl.
  split; [by rewrite bool_decide_eq_true_2|apply dict_set_values_new].
Qed.

Lemma demoteClosureVariable_makes_user_local_witness :
  (LocalVariable 3 "x"
     ∈ getUserLocalVariables
         (Examples.built
            (demoteClosureVariable ClassExamples.scope_inner_x
               (LocalVariable 1 "x"))))
  /\ dict_get
       (getProviding
          (Examples.built
             (demoteClosureVariable ClassExamples.scope_inner_x
                (LocalVariable 1 "x")))) "x"
     = Some (LocalVariable 3 "x")
  /\ (LocalVariable 1 "x"
        ∉ getTaken
            (Examples.built
               (demoteClosureVariable ClassExamples.scope_inner_x
                  (LocalVariable 1 "x"))))
  /\ getParentVariableProvider
       (Examples.built
          (demoteClosureVariable ClassExamples.scope_inner_x
             (LocalVariable 1 "x")))
     = Examples.scope_mid.
Proof.
  apply (demoteClosureVariable_makes_user_local
           {| sid := 3; kind := FunctionBody; name := "inner";
              is_lambda := false; is_genexpr := false; local_locals := true;
              unoptimized := false; parameters := Examples.no_parameters;
              providing := [("x", LocalVariable 1 "x")];
              taken := [LocalVariable 1 "x"]; body := None |}
           Examples.scope_mid (LocalVariable 1 "x")).
  reflexivity.
Defined.

(** ** Scopes: class bodies *)

(** X18: [getContainingClassDictCreation] returns the innermost class body
    of the chain that starts at the scope itself, and [None] exactly when
    the chain has no class body. *)
Theorem getContainingClassDictCreation_nearest scope :
  getContainingClassDictCreation scope
  = head (filter (fun current => Scope_isExpressionClassBody current = true)
            (chainScopes scope)).
Proof.
  induction scope as [module_id module_providing|data provider IH]; [done|].
  simpl. rewrite filter_cons. simpl.
  by destruct (kind data).
Qed.

Section ClassBodies.

Variable python_version : Z.

(** X19: the closure search looks through class bodies: for every name
    but [__class__] (and for that one too before Python 3) it finds the
    variable that it finds in the chain without its class bodies. *)
Theorem class_bodies_are_transparent scope variable_name :
  variable_name <> "__class__" \/ (python_version < 300)%Z ->
  (getVariableForClosure python_version scope variable_name).1
  = (getVariableForClosure python_version (withoutClassBodies scope)
       variable_name).1.
Proof.
  intros Hname.
  assert ((if String.eqb variable_name "__class__"
           then (python_version <? 300)%Z else true) = true) as Hskip.
  { destruct Hname as [Hne|Hversion].
    - by destruct (String.eqb_spec variable_name "__class__").
    - destruct (String.eqb variable_name "__class__"); [|done].
      by apply Z.ltb_lt. }
  induction scope as [module_id module_providing|data provider IH]; [done|].
  simpl.
  destruct (getVariableForClosure python_version provider variable_name)
    as [found provider'] eqn:Hsearch.
  simpl in IH.
  destruct (kind data) eqn:Hkind; simpl; rewrite ?Hkind;
    try (destruct (getVariableForClosure python_version
                     (withoutClassBodies provider) variable_name)
           as [found' provider''];
         simpl in IH; subst found';
         by destruct (dict_get (providing data) variable_name)).
  destruct (String.eqb variable_name "__class__");
    [by rewrite Hskip|done].
Qed.

End ClassBodies.

Lemma class_bodies_are_transparent_witness :
  (getVariableForClosure 350 ClassExamples.scope_class "x").1
  = (getVariableForClosure 350 (withoutClassBodies ClassExamples.scope_class)
       "x").1.
Proof.
  apply (class_bodies_are_transparent 350 ClassExamples.scope_class "x").
  left. discriminate.
Defined.

(** The method of the class example sees the [x] of [outer], not the
    attribute [x] of the class. *)
Example method_sees_outer_variable :
  (getVariableForReference 350 ClassExamples.scope_method "x").1
  = LocalVariable 1 "x"
  /\ dict_get (getProviding ClassExamples.scope_class) "x"
     = Some (LocalVariable 2 "x").
Proof. split; reflexivity. Qed.

(** ** Scopes: assignments *)

Section Assignment.

Variable python_version : Z.

(** X20: the first assignment to a name in a function body (a name that
    the body neither takes nor provides yet) creates a local variable of
    that body, which becomes one of its user local variables; the
    provider and the taken variables are untouched, and later assignments
    and references to the name in this body resolve to that same variable
    without changing anything. *)
Theorem assignment_creates_user_local data provider variable_name :
  local_locals data = true ->
  getTakenVariable (ExpressionFunctionBody data provider) variable_name
  = None ->
  dict_get (providing data) variable_name = None ->
  let self := ExpressionFunctionBody data provider in
  let variable := LocalVariable (sid data) variable_name in
  let self' :=
    (getVariableForAssignment python_version self variable_name).2 in
  (getVariableForAssignment python_version self variable_name).1 = variable
  /\ (variable ∈ getUserLocalVariables self')
  /\ getParentVariableProvider self' = provider
  /\ getTaken self' = taken data
  /\ getVariableForReference python_version self' variable_name
     = (variable, self')
  /\ getVariableForAssignment python_version self' variable_name
     = (variable, self').
Proof.
  intros Hlocals Htaken Hget self variable self'.
  assert (getVariableForAssignment python_version self variable_name
          = (variable, setProvided self variable_name variable)) as Hassign.
  { subst self variable. simpl. by rewrite Htaken, Hget, Hlocals. }
  subst self'. rewrite Hassign. subst self variable. simpl.
  split; [done|]. split.
  { unfold getUserLocalVariables. apply list_elem_of_filter. simpl.
    split; [by rewrite bool_decide_eq_true_2|apply dict_set_values_new]. }
  split; [done|]. split; [done|].
  unfold getTakenVariable in *. simpl in *.
  rewrite Htaken. by rewrite dict_get_dict_set.
Qed.

End Assignment.

Lemma assignment_creates_user_local_witness :
  let data :=
    {| sid := 1; kind := FunctionBody; name := "outer";
       is_lambda := false; is_genexpr := false; local_locals := true;
       unoptimized := false; parameters := Examples.no_parameters;
       providing := []; taken := []; body := None |} in
  let self := ExpressionFunctionBody data Examples.module0 in
  let variable := LocalVariable (sid data) "x" in
  let self' := (getVariableForAssignment 350 self "x").2 in
  (getVariableForAssignment 350 self "x").1 = variable
  /\ (variable ∈ getUserLocalVariables self')
  /\ getParentVariableProvider self' = Examples.module0
  /\ getTaken self' = taken data
  /\ getVariableForReference 350 self' "x" = (variable, self')
  /\ getVariableForAssignment 350 self' "x" = (variable, self').
Proof.
  apply (assignment_creates_user_local 350
           {| sid := 1; kind := FunctionBody; name := "outer";
              is_lambda := false; is_genexpr := false; local_locals := true;
              unoptimized := false; parameters := Examples.no_parameters;
              providing := []; taken := []; body := None |}
           Examples.module0 "x"); reflexivity.
Defined.

(** ** Scopes: new function bodies and their names *)

Lemma registerProvidedVariables_body data provider (variables : list Var) :
  registerProvidedVariables (ExpressionFunctionBody data provider) variables
  = ExpressionFunctionBody
      (set_providing data
         (fold_left
            (fun providing variable =>
               dict_set providing (Var_getName variable) variable)
            variables (providing data)))
      provider.
Proof.
  unfold registerProvidedVariables. revert data.
  induction variables as [|variable rest IH]; intros data; simpl.
  - by destruct data.
  - by rewrite IH.
Qed.

Lemma registered_ok (variables : list Var) (providing : Providing) :
  providing_ok providing ->
  providing_ok
    (fold_left
       (fun providing variable =>
          dict_set providing (Var_getName variable) variable)
       variables providing).
Proof.
  revert providing.
  induction variables as [|variable rest IH]; intros providing Hok; simpl;
    [done|].
  apply IH. by apply dict_set_ok.
Qed.

Lemma registered_values (variables : list Var) (providing : Providing)
    variable :
  variable ∈ dict_values
    (fold_left
       (fun providing variable =>
          dict_set providing (Var_getName variable) variable)
       variables providing) ->
  variable ∈ variables \/ variable ∈ dict_values providing.
Proof.
  revert providing.
  induction variables as [|first rest IH]; intros providing; simpl;
    [by right|].
  intros Hin. destruct (IH _ Hin) as [Hrest|Hset]; [left; by right|].
  unfold dict_values in Hset.
  apply list_elem_of_In, in_map_iff in Hset as ([key value] & Hvalue & Hentry).
  simpl in Hvalue. subst value.
  apply list_elem_of_In in Hentry.
  destruct (dict_set_entries _ _ _ _ Hentry) as [[= _ ->]|Hold];
    [left; by left|].
  right. unfold dict_values. apply list_elem_of_In, in_map_iff.
  exists (key, variable). split; [done|]. by apply list_elem_of_In.
Qed.

Lemma registered_get (number : nat) (names : list string) name :
  name ∈ names ->
  dict_get
    (fold_left
       (fun providing variable =>
          dict_set providing (Var_getName variable) variable)
       (map (ParameterVariable number) names) [])
    name
  = Some (ParameterVariable number name).
Proof.
  induction names as [|last before IH] using rev_ind.
  - intros Hin. by apply elem_of_nil in Hin.
  - intros Hin. rewrite map_app, fold_left_app. simpl.
    destruct (String.eqb_spec last name) as [->|Hne].
    + apply dict_get_dict_set.
    + rewrite dict_get_dict_set_ne by done. apply IH.
      apply elem_of_app in Hin as [Hin|Hin]; [done|].
      apply list_elem_of_singleton in Hin. by subst.
Qed.

Lemma filter_none {A} (P : A -> Prop) `{forall x, Decision (P x)}
    (l : list A) :
  (forall x, x ∈ l -> ~ P x) -> filter P l = [].
Proof.
  induction l as [|x rest IH]; intros Hnone; [done|].
  rewrite filter_cons. destruct (decide (P x)) as [Hx|_].
  - destruct (Hnone x); [by left|done].
  - apply IH. intros y Hy. apply Hnone. by right.
Qed.

Section NewBodies.

Variable python_version : Z.

Lemma ExpressionFunctionBody_init_data number provider given_name given_kind
    given_parameters self :
  ExpressionFunctionBody_init python_version number provider given_name
    given_kind given_parameters = Ok self ->
  exists data,
    self = ExpressionFunctionBody data provider
    /\ sid data = number /\ kind data = given_kind
    /\ local_locals data = true /\ unoptimized data = false
    /\ taken data = []
    /\ providing data
       = fold_left
           (fun providing variable =>
              dict_set providing (Var_getName variable) variable)
           (map (ParameterVariable number) (getAllNames given_parameters)) []
    /\ getFunctionName self
       = if String.eqb given_name "<listcontraction>"
            || String.eqb given_name "<setcontraction>"
            || String.eqb given_name "<dictcontraction>"
         then ""
         else given_name.
Proof.
  unfold ExpressionFunctionBody_init.
  destruct (String.eqb_spec given_name "<lambda>") as [->|Hlambda].
  { simpl. intros [= <-]. rewrite registerProvidedVariables_body.
    eexists. split; [done|]. by simpl. }
  destruct (String.eqb_spec given_name "<listcontraction>") as [->|Hlist].
  { simpl. destruct (python_version <? 300)%Z eqn:Hversion; [done|].
    simpl. intros [= <-]. rewrite registerProvidedVariables_body.
    eexists. split; [done|]. simpl. repeat split; try done.
    apply Z.ltb_ge in Hversion. by apply Z.leb_le. }
  simpl.
  destruct (String.eqb_spec given_name "<setcontraction>") as [->|Hset].
  { simpl. intros [= <-]. rewrite registerProvidedVariables_body.
    eexists. split; [done|]. by simpl. }
  destruct (String.eqb_spec given_name "<dictcontraction>") as [->|Hdict].
  { simpl. intros [= <-]. rewrite registerProvidedVariables_body.
    eexists. split; [done|]. by simpl. }
  destruct (String.eqb_spec given_name "<genexpr>") as [->|Hgenexpr].
  { simpl. intros [= <-]. rewrite registerProvidedVariables_body.
    eexists. split; [done|]. by simpl. }
  intros [= <-]. rewrite registerProvidedVariables_body.
  eexists. split; [done|]. by simpl.
Qed.

(** X21: [getFunctionName] gives back the name that the body was created
    with, [<lambda>] and [<genexpr>] included, although [__init__] stores
    these two in another form; only the names of the list, set and
    dictionary contractions come back empty. *)
Theorem getFunctionName_of_new_body number provider given_name given_kind
    given_parameters self :
  ExpressionFunctionBody_init python_version number provider given_name
    given_kind given_parameters = Ok self ->
  getFunctionName self
  = if String.eqb given_name "<listcontraction>"
       || String.eqb given_name "<setcontraction>"
       || String.eqb given_name "<dictcontraction>"
    then ""
    else given_name.
Proof.
  intros Hinit.
  destruct (ExpressionFunctionBody_init_data _ _ _ _ _ _ Hinit)
    as (data & _ & _ & _ & _ & _ & _ & _ & Hname).
  exact Hname.
Qed.

(** X22: a body that [__init__] has built is an optimized one that takes
    nothing, has no user local variable yet, and provides its declared
    parameters and nothing else, each as a parameter variable of its own
    under its name, whatever the order of their registration. *)
Theorem new_body_provides_its_parameters number provider given_name
    given_kind given_parameters self :
  ExpressionFunctionBody_init python_version number provider given_name
    given_kind given_parameters = Ok self ->
  (forall name, name ∈ getAllNames given_parameters ->
     dict_get (getProviding self) name = Some (ParameterVariable number name))
  /\ (forall variable, variable ∈ dict_values (getProviding self) ->
        exists name, name ∈ getAllNames given_parameters
                     /\ variable = ParameterVariable number name)
  /\ providing_ok (getProviding self)
  /\ getUserLocalVariables self = []
  /\ getTaken self = []
  /\ scope_id self = number
  /\ isUnoptimized self = false.
Proof.
  intros Hinit.
  destruct (ExpressionFunctionBody_init_data _ _ _ _ _ _ Hinit)
    as (data & -> & Hsid & _ & _ & Hunoptimized & Htaken & Hproviding & _).
  simpl. rewrite Hproviding.
  assert (forall variable,
            variable ∈ dict_values
              (fold_left
                 (fun providing variable =>
                    dict_set providing (Var_getName variable) variable)
                 (map (ParameterVariable number)
                    (getAllNames given_parameters)) []) ->
            exists name, name ∈ getAllNames given_parameters
                         /\ variable = ParameterVariable number name)
    as Hvalues.
  { intros variable Hin.
    destruct (registered_values _ _ _ Hin) as [Hparameter|Hnil].
    - apply list_elem_of_In, in_map_iff in Hparameter
        as (name & <- & Hname).
      exists name. split; [by apply list_elem_of_In|done].
    - by apply elem_of_nil in Hnil. }
  split; [intros name Hname; by apply registered_get|].
  split; [done|].
  split; [apply registered_ok; split; constructor|].
  split; [|done].
  unfold getUserLocalVariables. simpl. rewrite Hproviding.
  apply filter_none. intros variable Hin.
  destruct (Hvalues variable Hin) as (name & _ & ->). by simpl.
Qed.

End NewBodies.

Lemma getFunctionName_of_new_body_witness :
  getFunctionName
    (Examples.built
       (ExpressionFunctionBody_init 350 1 Examples.module0 "<lambda>"
          FunctionBody (Examples.spec_of ["a"] 0)))
  = "<lambda>".
Proof.
  apply (getFunctionName_of_new_body 350 1 Examples.module0 "<lambda>"
           FunctionBody (Examples.spec_of ["a"] 0)).
  reflexivity.
Defined.

Lemma new_body_provides_its_parameters_witness :
  let self :=
    Examples.built
      (ExpressionFunctionBody_init 350 1 Examples.module0 "f" FunctionBody
         (Examples.spec_of ["a"; "b"] 0)) in
  (forall name, name ∈ getAllNames (Examples.spec_of ["a"; "b"] 0) ->
     dict_get (getProviding self) name = Some (ParameterVariable 1 name))
  /\ (forall variable, variable ∈ dict_values (getProviding self) ->
        exists name, name ∈ getAllNames (Examples.spec_of ["a"; "b"] 0)
                     /\ variable = ParameterVariable 1 name)
  /\ providing_ok (getProviding self)
  /\ getUserLocalVariables self = []
  /\ getTaken self = []
  /\ scope_id self = 1
  /\ isUnoptimized self = false.
Proof.
  apply (new_body_provides_its_parameters 350 1 Examples.module0 "f"
           FunctionBody (Examples.spec_of ["a"; "b"] 0)).
  reflexivity.
Defined.

(** ** Scopes: names are not touched by variable resolution *)

Section QualnameFrame.

Variable python_version : Z.

Lemma getFunctionQualname_unfold data parent :
  getFunctionQualname python_version (ExpressionFunctionBody data parent)
  = match parent with
    | CompiledPythonModule _ _ =>
        getFunctionName (ExpressionFunctionBody data parent)
    | ExpressionFunctionBody provider_data _ =>
        match kind provider_data with
        | ClassBody =>
            getFunctionQualname python_version parent +:+ "." +:+
            getFunctionName (ExpressionFunctionBody data parent)
        | _ =>
            getFunctionQualname python_version parent +:+ ".<locals>." +:+
            getFunctionName (ExpressionFunctionBody data parent)
        end
    end.
Proof.
  destruct parent as [module_id module_providing|provider_data grandparent].
  - simpl. by destruct (python_version <? 340)%Z.
  - change (getFunctionQualname python_version
              (ExpressionFunctionBody data
                 (ExpressionFunctionBody provider_data grandparent)))
      with (let function_name :=
              getFunctionName
                (ExpressionFunctionBody data
                   (ExpressionFunctionBody provider_data grandparent)) in
            let provider :=
              if (python_version <? 340)%Z
              then ExpressionFunctionBody provider_data grandparent
              else ExpressionFunctionBody provider_data grandparent in
            match provider with
            | CompiledPythonModule _ _ => function_name
            | ExpressionFunctionBody provider_data' _ =>
                match kind provider_data' with
                | ClassBody =>
                    getFunctionQualname python_version provider +:+ "."
                    +:+ function_name
                | _ =>
                    getFunctionQualname python_version provider
                    +:+ ".<locals>." +:+ function_name
                end
            end).
    cbv zeta. by destruct (python_version <? 340)%Z.
Qed.

(** The qualified name reads only the kind and the name attributes of the
    bodies of the chain. *)
Lemma getFunctionQualname_namingData scope scope' :
  map namingData (chainData scope) = map namingData (chainData scope') ->
  getFunctionQualname python_version scope
  = getFunctionQualname python_version scope'.
Proof.
  revert scope'.
  induction scope as [module_id module_providing|data provider IH];
    intros [module_id' module_providing'|data' provider']; simpl chainData;
    simpl map; try done.
  intros [= Hkind Hn Hlambda Hgenexpr Hchain].
  rewrite !getFunctionQualname_unfold.
  specialize (IH provider' Hchain).
  assert (getFunctionName (ExpressionFunctionBody data provider)
          = getFunctionName (ExpressionFunctionBody data' provider'))
    as Hname.
  { simpl. by rewrite Hn, Hlambda, Hgenexpr. }
  rewrite Hname.
  destruct provider as [|provider_data grandparent],
    provider' as [|provider_data' grandparent']; simpl in Hchain; try done.
  injection Hchain as Hprovider _ _ _ _.
  rewrite Hprovider, IH. done.
Qed.

(** X23: resolving a reference to a variable never changes the name or
    the qualified name of the function body in which it is resolved. *)
Theorem reference_resolution_keeps_names scope variable_name :
  getFunctionQualname python_version
    (getVariableForReference python_version scope variable_name).2
  = getFunctionQualname python_version scope
  /\ getFunctionName
       (getVariableForReference python_version scope variable_name).2
     = getFunctionName scope.
Proof.
  assert (map namingData
            (chainData
               (getVariableForReference python_version scope
                  variable_name).2)
          = map namingData (chainData scope)) as Hnaming.
  { destruct scope as [module_id module_providing|data provider].
    - unfold getVariableForReference.
      by rewrite getVariableForClosure_chainData.
    - unfold getVariableForReference.
      destruct (dict_get (providing data) variable_name); [done|].
      unfold getClosureVariable.
      pose proof (getVariableForClosure_chainData python_version provider
                    variable_name) as Hchain.
      destruct (getVariableForClosure python_version provider variable_name)
        as [found provider'].
      simpl in Hchain.
      destruct (isModuleVariable found) eqn:Hmodule,
        (unoptimized data) eqn:Hunoptimized;
        do 4 (simpl; rewrite ?Hmodule, ?Hunoptimized, ?Hchain); done. }
  split; [by apply getFunctionQualname_namingData|].
  destruct scope as [module_id module_providing|data provider].
  - simpl. by destruct (dict_get module_providing variable_name).
  - destruct (getVariableForReference python_version
                (ExpressionFunctionBody data provider) variable_name).2
      as [|data' provider']; simpl in Hnaming; [done|].
    injection Hnaming as _ Hn Hlambda Hgenexpr _.
    simpl. by rewrite Hn, Hlambda, Hgenexpr.
Qed.

End QualnameFrame.
